(** * FedLab coordination core: server handlers and client topology

    A shallow embedding of [fedlab_core/server/handler.py] and
    [fedlab_core/client/topology.py], and the properties of the
    coordination protocol proved about it.

    Conventions of the embedding.
    - A Python object that is mutated in place is a record; a method is a
      computation in the monad [M S], which threads the object and either
      returns or raises.  An exception keeps the mutations made before it,
      as in Python.
    - [select_ratio] is a Python float, an IEEE binary64 number
      ([spec_float] of the standard library); the quorum is the
      truncation of its rounded product with the number of clients.
    - A [torch.Tensor] of model parameters is a one-dimensional list of
      scalars.  The scalar arithmetic is a parameter ([Scalar]): the
      properties of the handlers are proved for every arithmetic, with
      no algebraic law assumed, unless they say otherwise; examples are
      evaluated on exact rationals ([Qc_Scalar]) and on IEEE binary64
      floats ([float_Scalar]).
    - Logging ([self._LOGGER.info]) has no effect on the objects modelled
      and is left out. *)

From Stdlib Require Import ZArith QArith Qcanon Lia Permutation.
From Stdlib Require Import Floats.SpecFloat Floats.FloatOps.
From Stdlib Require Import Floats.PrimFloat Numbers.Cyclic.Int63.Uint63.
From stdpp Require Import base list numbers.

Open Scope Z_scope.

(** ** Scalars and tensors *)

Class Scalar (R : Type) : Type := {
  sadd : R -> R -> R;
  ssub : R -> R -> R;
  smul : R -> R -> R;
  sdiv : R -> R -> R;
  sofZ : Z -> R
}.

#[export] Instance Qc_Scalar : Scalar Qc := {|
  sadd := Qcplus;
  ssub := Qcminus;
  smul := Qcmult;
  sdiv := Qcdiv;
  sofZ := fun z => Q2Qc (inject_Z z)
|}.

Definition float_of_Z (z : Z) : float :=
  if z <? 0 then PrimFloat.opp (PrimFloat.of_uint63 (Uint63.of_Z (- z)))
  else PrimFloat.of_uint63 (Uint63.of_Z z).

#[export] Instance float_Scalar : Scalar float := {|
  sadd := PrimFloat.add;
  ssub := PrimFloat.sub;
  smul := PrimFloat.mul;
  sdiv := PrimFloat.div;
  sofZ := float_of_Z
|}.

(** Python exceptions raised by the code or by the library calls it makes. *)
Inductive exn : Type :=
| NotImplementedError
| Exception_Undefined_message_type   (* Exception("Undefined message type!") *)
| IndexError
| TypeError
| RuntimeError
| OverflowError
| ValueError
| SystemExit (code : Z).

Module Torch.
Section Tensors.
Context {R : Type} `{Scalar R}.

Definition Tensor : Type := list R.

(** [t.clone()] *)
Definition clone (t : Tensor) : Tensor := t.

(** [scalar * tensor] *)
Definition scale (c : R) (t : Tensor) : Tensor := map (smul c) t.

(** [a + b] on one-dimensional tensors, with torch's broadcasting of a
    tensor of one element. *)
Definition add (a b : Tensor) : exn + Tensor :=
  if (length a =? length b)%nat then inr (zip_with sadd a b)
  else match a, b with
       | [x], _ => inr (map (sadd x) b)
       | _, [y] => inr (map (fun u => sadd u y) a)
       | _, _ => inl RuntimeError
       end.

(** [dst[:] = src]: the destination keeps its length; a source of one
    element is broadcast, any other length mismatch is an error. *)
Definition assign_all (dst src : Tensor) : exn + Tensor :=
  if (length src =? length dst)%nat then inr src
  else match src with
       | [x] => inr (replicate (length dst) x)
       | _ => inl RuntimeError
       end.

(** The argument check of [torch.stack]: every element is a tensor. *)
Fixpoint tensors (l : list (option Tensor)) : option (list Tensor) :=
  match l with
  | [] => Some []
  | None :: _ => None
  | Some t :: l' =>
      match tensors l' with
      | Some ts => Some (t :: ts)
      | None => None
      end
  end.

(** [torch.stack(l)] for a Python list [l] of one-dimensional tensors:
    [TypeError] when an element is [None], [RuntimeError] when the list
    is empty or the sizes differ; otherwise the rows of the matrix. *)
Definition stack (l : list (option Tensor)) : exn + list Tensor :=
  match tensors l with
  | None => inl TypeError
  | Some [] => inl RuntimeError
  | Some (t :: ts) =>
      if forallb (fun u => (length u =? length t)%nat) ts
      then inr (t :: ts)
      else inl RuntimeError
  end.

(** [torch.sum(rows, dim=0)]: the rows added up, first to last. *)
Definition sum_dim0 (rows : list Tensor) : Tensor :=
  match rows with
  | [] => []
  | t :: ts => foldl (zip_with sadd) t ts
  end.

(** [torch.mean(rows, dim=0)]: the column sums divided by the number
    of rows. *)
Definition mean_dim0 (rows : list Tensor) : Tensor :=
  map (fun x => sdiv x (sofZ (Z.of_nat (length rows)))) (sum_dim0 rows).
End Tensors.
End Torch.

Abbreviation Tensor := Torch.Tensor.

(** ** Python lists indexed by an [int] *)

(** The position [l[i]] refers to: negative indices count from the end;
    [None] stands for [IndexError]. *)
Definition py_index (len : nat) (i : Z) : option nat :=
  if (0 <=? i) && (i <? Z.of_nat len) then Some (Z.to_nat i)
  else if (- Z.of_nat len <=? i) && (i <? 0) then Some (Z.to_nat (Z.of_nat len + i))
  else None.

(** ** Methods: state and exceptions *)

Inductive Outcome (S A : Type) : Type :=
| Returned (a : A) (s : S)
| Raised (e : exn) (s : S).
Arguments Returned {S A} a s.
Arguments Raised {S A} e s.

Definition M (S A : Type) : Type := S -> Outcome S A.

Definition ret {S A} (a : A) : M S A := fun s => Returned a s.

Definition bind {S A B} (c : M S A) (k : A -> M S B) : M S B :=
  fun s => match c s with
           | Returned a s' => k a s'
           | Raised e s' => Raised e s'
           end.

Definition raise {S A} (e : exn) : M S A := fun s => Raised e s.
Definition get {S} : M S S := fun s => Returned s s.
Definition gets {S A} (f : S -> A) : M S A := fun s => Returned (f s) s.
Definition modify {S} (f : S -> S) : M S unit := fun s => Returned tt (f s).

(** A library call that may fail. *)
Definition lift {S A} (r : exn + A) : M S A :=
  match r with
  | inl e => raise e
  | inr a => ret a
  end.

(** [l[i]], raising [IndexError] out of range. *)
Definition getitem {S A} (l : list A) (i : Z) : M S A :=
  match py_index (length l) i with
  | Some n => match l !! n with
              | Some a => ret a
              | None => raise IndexError
              end
  | None => raise IndexError
  end.

(** [l[i] = x], raising [IndexError] out of range; the computation
    returns the list as the assignment leaves it. *)
Definition setitem {S A} (l : list A) (i : Z) (x : A) : M S (list A) :=
  match py_index (length l) i with
  | Some n => ret (<[n:=x]> l)
  | None => raise IndexError
  end.

Declare Scope py_scope.
Delimit Scope py_scope with py.
Notation "x <- c ;; k" := (bind c (fun x => k))
  (at level 100, c at next level, right associativity) : py_scope.
Notation "c ;; k" := (bind c (fun _ => k))
  (at level 100, right associativity) : py_scope.
Open Scope py_scope.

(** ** Messages *)

(** Modelled from the spec: the enumeration [MessageCode] of
    [fedlab_core.utils.messaging], a module that is not part of the
    sources at hand.  The four kinds are the ones the spec names and the
    code mentions; [OtherCode] is any further member of the enumeration,
    the ones the final [else] branches of the handlers are written for. *)
Inductive MessageCode : Type :=
| ParameterUpdate
| ParameterRequest
| GradientUpdate
| Exit
| OtherCode (ordinal : Z).

Definition MessageCode_eqb (a b : MessageCode) : bool :=
  match a, b with
  | ParameterUpdate, ParameterUpdate => true
  | ParameterRequest, ParameterRequest => true
  | GradientUpdate, GradientUpdate => true
  | Exit, Exit => true
  | OtherCode m, OtherCode n => m =? n
  | _, _ => false
  end.

(** Modelled from the spec: [ravel_model_params] and
    [unravel_model_params] of [fedlab_core.utils.serialization], which is
    not part of the sources at hand.  The externally managed model handle
    is represented by the vector of its parameters: ravelling reads that
    vector, unravelling a buffer into the handle makes the buffer the
    handle's parameters. *)
Definition ravel_model_params {R} (model : Tensor (R:=R)) : Tensor (R:=R) :=
  model.
Definition unravel_model_params {R} (model buffer : Tensor (R:=R)) : Tensor (R:=R) :=
  buffer.

(** Modelled from the spec: what [send_message(code, payload, dst)] of
    [fedlab_core.utils.messaging] hands to the channel; [dst] defaults to
    rank 0, the server. *)
Record Sent {R : Type} : Type := mkSent {
  sent_code : MessageCode;
  sent_payload : Tensor (R:=R);
  sent_dst : Z
}.
Arguments Sent R : clear implicits.

(** ** [class ParameterServerHandler] *)

Module ParameterServerHandler.
Section Class.
Context {R : Type} `{Scalar R}.

Record t : Type := mk {
  _model : Tensor (R:=R);
  _buffer : Tensor (R:=R);
  cuda : bool
}.

(** [model.cuda()] and [model.cpu()] move the handle between devices
    and leave its parameters as they are. *)
Definition __init__ (model : Tensor) (cuda : bool) : t :=
  let _model := model in
  {| _model := _model;
     _buffer := ravel_model_params _model;
     cuda := cuda |}.

(** [def receive(self)] *)
Definition receive : M t unit := raise NotImplementedError.

(** [def update(self, model_list)] *)
Definition update (model_list : list (Tensor (R:=R))) : M t unit :=
  raise NotImplementedError.

Definition buffer (self : t) : Tensor := _buffer self.
Definition model (self : t) : Tensor := _model self.
End Class.
Arguments t R : clear implicits.
End ParameterServerHandler.

(** ** [class SyncParameterServerHandler(ParameterServerHandler)] *)

(** A Python float is an IEEE binary64 number: a [spec_float] with a
    mantissa of 53 bits and the exponent bound 1024, computed with the
    operations of the standard library's specification of IEEE
    arithmetic. *)
Abbreviation py_float := spec_float.

(** [float(n)] of a Python int, as [x * n] computes it for a float [x]:
    the nearest float, ties to even; [OverflowError] when the int is too
    large for a float. *)
Definition py_float_of_int (n : Z) : exn + py_float :=
  match binary_normalize 53 1024 n 0 false with
  | S754_infinity _ => inl OverflowError
  | x => inr x
  end.

(** [x * n] for a float [x] and an int [n]: the rounded product. *)
Definition py_float_mul_int (x : py_float) (n : Z) : exn + py_float :=
  match py_float_of_int n with
  | inl e => inl e
  | inr y => inr (SFmul 53 1024 x y)
  end.

(** [int(x)] of a float: truncation towards zero; [ValueError] on a NaN
    and [OverflowError] on an infinity. *)
Definition py_int (x : py_float) : exn + Z :=
  match x with
  | S754_nan => inl ValueError
  | S754_infinity _ => inl OverflowError
  | S754_zero _ => inr 0
  | S754_finite s m e =>
      let magnitude := if 0 <=? e then Zpos m * 2 ^ e else Zpos m / 2 ^ (- e) in
      inr (if s then - magnitude else magnitude)
  end.

(** The float literals [0.0], [0.29], [0.5], [0.7] and [1.0]. *)
Definition float_0_0 : py_float := S754_zero false.
Definition float_0_29 : py_float := S754_finite false 5224175567749775 (-54).
Definition float_0_5 : py_float := S754_finite false 4503599627370496 (-53).
Definition float_0_7 : py_float := S754_finite false 6305039478318694 (-53).
Definition float_1_0 : py_float := S754_finite false 4503599627370496 (-52).

Module SyncParameterServerHandler.
Section Class.
Context {R : Type} `{Scalar R}.

Record t : Type := mk {
  _model : Tensor (R:=R);
  _buffer : Tensor (R:=R);
  cuda : bool;
  client_num : Z;
  select_ratio : py_float;
  round_num : Z;
  client_buffer_cache : list (option (Tensor (R:=R)));
  buffer_cnt : Z;
  update_flag : bool
}.

Definition set__model (v : Tensor) (h : t) : t :=
  mk v (_buffer h) (cuda h) (client_num h) (select_ratio h) (round_num h)
     (client_buffer_cache h) (buffer_cnt h) (update_flag h).
Definition set__buffer (v : Tensor) (h : t) : t :=
  mk (_model h) v (cuda h) (client_num h) (select_ratio h) (round_num h)
     (client_buffer_cache h) (buffer_cnt h) (update_flag h).
Definition set_client_buffer_cache (v : list (option Tensor)) (h : t) : t :=
  mk (_model h) (_buffer h) (cuda h) (client_num h) (select_ratio h) (round_num h)
     v (buffer_cnt h) (update_flag h).
Definition set_buffer_cnt (v : Z) (h : t) : t :=
  mk (_model h) (_buffer h) (cuda h) (client_num h) (select_ratio h) (round_num h)
     (client_buffer_cache h) v (update_flag h).
Definition set_update_flag (v : bool) (h : t) : t :=
  mk (_model h) (_buffer h) (cuda h) (client_num h) (select_ratio h) (round_num h)
     (client_buffer_cache h) (buffer_cnt h) v.

(** [[None for _ in range(n)]] *)
Definition empty_cache (n : Z) : list (option (Tensor (R:=R))) :=
  replicate (Z.to_nat n) None.

(** [def __init__(self, model, client_num, cuda=False, select_ratio=1.0,
    ...)].  [self.round_num = int(self.select_ratio * self.client_num)]
    is the truncation of the rounded float product and is where the
    construction can raise. *)
Definition __init__ (model : Tensor) (client_num : Z) (cuda : bool)
    (select_ratio : py_float) : exn + t :=
  let base := ParameterServerHandler.__init__ model cuda in
  match py_float_mul_int select_ratio client_num with
  | inl e => inl e
  | inr product =>
      match py_int product with
      | inl e => inl e
      | inr round_num =>
          inr {| _model := ParameterServerHandler._model base;
                 _buffer := ParameterServerHandler._buffer base;
                 cuda := ParameterServerHandler.cuda base;
                 client_num := client_num;
                 select_ratio := select_ratio;
                 round_num := round_num;
                 client_buffer_cache := empty_cache client_num;
                 buffer_cnt := 0;
                 update_flag := false |}
      end
  end.

(** The body of [if self.buffer_cnt == self.round_num:] in [receive]:
    average the cache into the buffer, load the buffer into the model,
    reset the round. *)
Definition aggregate : M t unit :=
  cache <- gets client_buffer_cache ;;
  stacked <- lift (Torch.stack cache) ;;
  buf <- gets _buffer ;;
  buf' <- lift (Torch.assign_all buf (Torch.mean_dim0 stacked)) ;;
  modify (set__buffer buf') ;;
  modify (fun h => set__model (unravel_model_params (_model h) (_buffer h)) h) ;;
  modify (set_buffer_cnt 0) ;;
  modify (fun h => set_client_buffer_cache (empty_cache (client_num h)) h) ;;
  modify (set_update_flag true).

(** [def receive(self, sender, message_code, payload)] *)
Definition receive (sender : Z) (message_code : MessageCode)
    (payload : Tensor (R:=R)) : M t unit :=
  if MessageCode_eqb message_code ParameterUpdate then
    let buffer_index := sender - 1 in
    cache <- gets client_buffer_cache ;;
    slot <- getitem cache buffer_index ;;
    match slot with
    | Some _ => ret tt
    | None =>
        modify (fun h => set_buffer_cnt (buffer_cnt h + 1) h) ;;
        cache <- gets client_buffer_cache ;;
        cache' <- setitem cache buffer_index (Some (Torch.clone payload)) ;;
        modify (set_client_buffer_cache cache') ;;
        h <- get ;;
        if buffer_cnt h =? round_num h then aggregate else ret tt
    end
  else raise Exception_Undefined_message_type.

Definition is_updated : M t bool := gets update_flag.

Definition start_round : M t unit := modify (set_update_flag false).

(** [def select_clients(self)].  The method reads the handler and leaves
    it as it is.  [random_sample] stands for [random.sample]; its result
    [None] stands for the [ValueError] it raises. *)
Definition select_clients (random_sample : list Z -> Z -> option (list Z))
    (self : t) : option (list Z) :=
  let id_list := map (fun i : nat => Z.of_nat i + 1)
                     (seq 0 (Z.to_nat (client_num self))) in
  let select := random_sample id_list (round_num self) in
  select.

Definition buffer (self : t) : Tensor := _buffer self.
Definition model (self : t) : Tensor := _model self.
End Class.
Arguments t R : clear implicits.
End SyncParameterServerHandler.

(** ** [class AsyncParameterServerHandler(ParameterServerHandler)] *)

Module AsyncParameterServerHandler.
Section Class.
Context {R : Type} `{Scalar R}.

(** [outbox] is not an attribute of the object: it records, oldest
    first, what the handler handed to [send_message]. *)
Record t : Type := mk {
  _model : Tensor (R:=R);
  _buffer : Tensor (R:=R);
  cuda : bool;
  client_buffer_cache : list (Tensor (R:=R));
  alpha : R;
  decay : R;
  outbox : list (Sent R)
}.

Definition set__model (v : Tensor) (h : t) : t :=
  mk v (_buffer h) (cuda h) (client_buffer_cache h) (alpha h) (decay h) (outbox h).
Definition set__buffer (v : Tensor) (h : t) : t :=
  mk (_model h) v (cuda h) (client_buffer_cache h) (alpha h) (decay h) (outbox h).
Definition set_outbox (v : list (Sent R)) (h : t) : t :=
  mk (_model h) (_buffer h) (cuda h) (client_buffer_cache h) (alpha h) (decay h) v.

(** The literals [0.5] and [0.9]. *)
Definition __init__ (model : Tensor) (cuda : bool) : t :=
  let base := ParameterServerHandler.__init__ model cuda in
  {| _model := ParameterServerHandler._model base;
     _buffer := ParameterServerHandler._buffer base;
     cuda := ParameterServerHandler.cuda base;
     client_buffer_cache := [];
     alpha := sdiv (sofZ 1) (sofZ 2);
     decay := sdiv (sofZ 9) (sofZ 10);
     outbox := [] |}.

Definition send_message (code : MessageCode) (payload : Tensor) (dst : Z)
    : M t unit :=
  modify (fun h => set_outbox (outbox h ++ [mkSent R code payload dst]) h).

(** [def update(self, model_list)] *)
Definition update (model_list : list (Tensor (R:=R))) : M t unit :=
  params <- (match model_list with
             | p :: _ => ret p
             | [] => raise IndexError
             end) ;;
  h <- get ;;
  merged <- lift (Torch.add (Torch.scale (ssub (sofZ 1) (alpha h)) (_buffer h))
                            (Torch.scale (alpha h) params)) ;;
  buf' <- lift (Torch.assign_all (_buffer h) merged) ;;
  modify (set__buffer buf') ;;
  modify (fun h => set__model (unravel_model_params (_model h) (_buffer h)) h).

(** [def receive(self, sender, message_code, parameter)] *)
Definition receive (sender : Z) (message_code : MessageCode)
    (parameter : Tensor (R:=R)) : M t unit :=
  if MessageCode_eqb message_code ParameterUpdate then
    update [parameter]
  else if MessageCode_eqb message_code ParameterRequest then
    h <- get ;;
    send_message ParameterUpdate (_model h) sender
  else if MessageCode_eqb message_code GradientUpdate then
    raise NotImplementedError
  else if MessageCode_eqb message_code Exit then
    ret tt
  else
    ret tt.

Definition buffer (self : t) : Tensor := _buffer self.
Definition model (self : t) : Tensor := _model self.
End Class.
Arguments t R : clear implicits.
End AsyncParameterServerHandler.

(** ** The client side: [class ClientCommunicationTopology(Process)] *)

(** Modelled from the spec: a frame as [recv_message] of
    [fedlab_core.utils.messaging] delivers it, already split into the
    sender rank, the message kind and the parameters ([self._buff[0]],
    [MessageCode(self._buff[1])] and [self._buff[2:]] in [run]). *)
Record Message {R : Type} : Type := mkMessage {
  msg_sender : Z;
  msg_code : MessageCode;
  msg_payload : Tensor (R:=R)
}.
Arguments Message R : clear implicits.

Module ClientCommunicationTopology.
Section Class.
Context {R : Type} `{Scalar R}.

(** [_backend_buffer] is [self._backend.buffer]; [trained] lists the
    [epochs] arguments of the calls of [self._backend.train]; [outbox]
    records what was handed to [send_message]. *)
Record t : Type := mk {
  _backend_buffer : Tensor (R:=R);
  rank : Z;
  world_size : Z;
  trained : list Z;
  outbox : list (Sent R)
}.

(** [def run(self)] *)
Definition run : M t unit := raise NotImplementedError.

(** [def receive(self, sender, message_code, payload)] *)
Definition receive (sender : Z) (message_code : MessageCode)
    (payload : Tensor (R:=R)) : M t unit :=
  raise NotImplementedError.

(** [def synchronise(self, payload)] *)
Definition synchronise (payload : Tensor (R:=R)) : M t unit :=
  raise NotImplementedError.
End Class.
Arguments t R : clear implicits.
End ClientCommunicationTopology.

(** ** [class ClientSyncTop(ClientCommunicationTopology)] *)

Module ClientSyncTop.
Section Class.
Context {R : Type} `{Scalar R}.

(** The local trainer [self._backend.train(epochs)], an external
    collaborator: what it makes of the backend's buffer. *)
Variable train : Z -> Tensor (R:=R) -> Tensor (R:=R).

Abbreviation t := (ClientCommunicationTopology.t R).

Definition set__backend_buffer (v : Tensor) (c : t) : t :=
  ClientCommunicationTopology.mk v
    (ClientCommunicationTopology.rank c)
    (ClientCommunicationTopology.world_size c)
    (ClientCommunicationTopology.trained c)
    (ClientCommunicationTopology.outbox c).

Definition backend_train (epochs : Z) : M t unit :=
  modify (fun c =>
    ClientCommunicationTopology.mk
      (train epochs (ClientCommunicationTopology._backend_buffer c))
      (ClientCommunicationTopology.rank c)
      (ClientCommunicationTopology.world_size c)
      (ClientCommunicationTopology.trained c ++ [epochs])
      (ClientCommunicationTopology.outbox c)).

Definition send_message (code : MessageCode) (payload : Tensor) (dst : Z)
    : M t unit :=
  modify (fun c =>
    ClientCommunicationTopology.mk
      (ClientCommunicationTopology._backend_buffer c)
      (ClientCommunicationTopology.rank c)
      (ClientCommunicationTopology.world_size c)
      (ClientCommunicationTopology.trained c)
      (ClientCommunicationTopology.outbox c ++ [mkSent R code payload dst])).

(** [def receive(self, sender, message_code, payload)] *)
Definition receive (sender : Z) (message_code : MessageCode)
    (payload : Tensor (R:=R)) : M t unit :=
  modify (set__backend_buffer payload) ;;
  backend_train 2.

(** [def synchronize(self, buffer)] *)
Definition synchronize (buffer : Tensor (R:=R)) : M t unit :=
  send_message ParameterUpdate buffer 0.

(** [ClientSyncTop] has no method of the name [synchronise]: the
    attribute resolves to the one of the base class. *)
Definition synchronise : Tensor (R:=R) -> M t unit :=
  ClientCommunicationTopology.synchronise.

(** One turn of the [while (True)] loop of [run], on the frame that
    [recv_message] delivered. *)
Definition run_iteration (frame : Message R) : M t unit :=
  let sender := msg_sender frame in
  let message_code := msg_code frame in
  let parameter := msg_payload frame in
  (if MessageCode_eqb message_code Exit
   then raise (SystemExit 0) else ret tt) ;;
  receive sender message_code parameter ;;
  c <- get ;;
  synchronise (ClientCommunicationTopology._backend_buffer c).

(** [def run(self)], on the frames the server sends; when they are
    used up the client is blocked in [recv_message]. *)
Fixpoint run (frames : list (Message R)) : M t unit :=
  match frames with
  | [] => ret tt
  | frame :: frames' => run_iteration frame ;; run frames'
  end.
End Class.
End ClientSyncTop.

(** ** The server's receive loop *)

(** Modelled from the spec: the external serialized receive loop that
    feeds a handler one message at a time (its code is not part of the
    sources at hand); an exception of [receive] ends it. *)
Fixpoint serve {S R : Type}
    (receive : Z -> MessageCode -> Tensor (R:=R) -> M S unit)
    (msgs : list (Message R)) : M S unit :=
  match msgs with
  | [] => ret tt
  | m :: msgs' =>
      receive (msg_sender m) (msg_code m) (msg_payload m) ;;
      serve receive msgs'
  end.

(** * Vocabulary of the properties *)

(** The object a method call leaves behind, and whether it returned. *)
Definition state_of {St A} (o : Outcome St A) : St :=
  match o with
  | Returned _ s => s
  | Raised _ s => s
  end.

Definition has_returned {St A} (o : Outcome St A) : bool :=
  match o with
  | Returned _ _ => true
  | Raised _ _ => false
  end.

(** Rationals as scalars, for the examples. *)
Definition qc (n : Z) (d : positive) : Qc := Q2Qc (n # d).

Section Vocabulary.
Context {R : Type} `{Scalar R}.

(** The cache has one slot per client. *)
Definition cache_sized (h : SyncParameterServerHandler.t R) : Prop :=
  length (SyncParameterServerHandler.client_buffer_cache h)
  = Z.to_nat (SyncParameterServerHandler.client_num h).

(** The handler between two rounds: no contribution is cached. *)
Definition round_start (h : SyncParameterServerHandler.t R) : Prop :=
  SyncParameterServerHandler.client_buffer_cache h
  = SyncParameterServerHandler.empty_cache (SyncParameterServerHandler.client_num h)
  /\ SyncParameterServerHandler.buffer_cnt h = 0.

(** [self.client_buffer_cache[sender - 1]]: the slot [receive] looks at
    for a sender, [None] when the index is out of range. *)
Definition cache_slot (h : SyncParameterServerHandler.t R) (sender : Z)
    : option (option (Tensor (R:=R))) :=
  match py_index (length (SyncParameterServerHandler.client_buffer_cache h))
                 (sender - 1) with
  | Some n => SyncParameterServerHandler.client_buffer_cache h !! n
  | None => None
  end.

(** What [receive] leaves behind when it accepts a contribution into
    slot [n], before it looks at the quorum. *)
Definition accepted (n : nat) (payload : Tensor (R:=R))
    (h : SyncParameterServerHandler.t R) : SyncParameterServerHandler.t R :=
  SyncParameterServerHandler.set_client_buffer_cache
    (<[n := Some payload]> (SyncParameterServerHandler.client_buffer_cache h))
    (SyncParameterServerHandler.set_buffer_cnt
       (SyncParameterServerHandler.buffer_cnt h + 1) h).

(** A [ParameterUpdate] of a client rank of a federation of [n] clients. *)
Definition client_update (n : Z) (m : Message R) : Prop :=
  msg_code m = ParameterUpdate /\ 1 <= msg_sender m <= n.

(** The cache after the contributions [ms] went into their slots. *)
Definition fill (cache : list (option (Tensor (R:=R)))) (ms : list (Message R))
    : list (option (Tensor (R:=R))) :=
  foldl (fun c m => <[Z.to_nat (msg_sender m - 1) := Some (msg_payload m)]> c)
        cache ms.

(** The number of occupied slots of a cache. *)
Fixpoint occupied (cache : list (option (Tensor (R:=R)))) : nat :=
  match cache with
  | [] => 0
  | Some _ :: cache' => S (occupied cache')
  | None :: cache' => occupied cache'
  end.

(** The handler after a completed round that installed [buf]. *)
Definition completed (buf : Tensor (R:=R)) (h : SyncParameterServerHandler.t R)
    : SyncParameterServerHandler.t R :=
  {| SyncParameterServerHandler._model := buf;
     SyncParameterServerHandler._buffer := buf;
     SyncParameterServerHandler.cuda := SyncParameterServerHandler.cuda h;
     SyncParameterServerHandler.client_num := SyncParameterServerHandler.client_num h;
     SyncParameterServerHandler.select_ratio :=
       SyncParameterServerHandler.select_ratio h;
     SyncParameterServerHandler.round_num := SyncParameterServerHandler.round_num h;
     SyncParameterServerHandler.client_buffer_cache :=
       SyncParameterServerHandler.empty_cache (SyncParameterServerHandler.client_num h);
     SyncParameterServerHandler.buffer_cnt := 0;
     SyncParameterServerHandler.update_flag := true |}.

(** The exponential merge of a payload into a buffer, element by element. *)
Definition merge (alpha : R) (buffer payload : Tensor (R:=R)) : Tensor (R:=R) :=
  zip_with (fun b x => sadd (smul (ssub (sofZ 1) alpha) b) (smul alpha x))
           buffer payload.

(** The async handler after it merged [payload]. *)
Definition merged (payload : Tensor (R:=R)) (h : AsyncParameterServerHandler.t R)
    : AsyncParameterServerHandler.t R :=
  let buf := merge (AsyncParameterServerHandler.alpha h)
                   (AsyncParameterServerHandler._buffer h) payload in
  AsyncParameterServerHandler.set__model buf
    (AsyncParameterServerHandler.set__buffer buf h).

(** The handlers that a handler [h0] can become: by calls of [receive],
    whether they return or raise, and of [start_round]. *)
Inductive sync_reachable (h0 : SyncParameterServerHandler.t R)
    : SyncParameterServerHandler.t R -> Prop :=
| reach_here : sync_reachable h0 h0
| reach_receive h sender code payload :
    sync_reachable h0 h ->
    sync_reachable h0
      (state_of (SyncParameterServerHandler.receive sender code payload h))
| reach_start_round h :
    sync_reachable h0 h ->
    sync_reachable h0 (state_of (SyncParameterServerHandler.start_round h)).

(** One contribution of every client, each of the buffer's length. *)
Definition full_round (h : SyncParameterServerHandler.t R) (ms : list (Message R))
    : Prop :=
  Forall (client_update (SyncParameterServerHandler.client_num h)) ms
  /\ NoDup (map msg_sender ms)
  /\ Z.of_nat (length ms) = SyncParameterServerHandler.client_num h
  /\ Forall (fun m => length (msg_payload m)
                      = length (SyncParameterServerHandler._buffer h)) ms.

(** The async handler with another [decay]. *)
Definition set_decay (v : R) (h : AsyncParameterServerHandler.t R)
    : AsyncParameterServerHandler.t R :=
  AsyncParameterServerHandler.mk
    (AsyncParameterServerHandler._model h) (AsyncParameterServerHandler._buffer h)
    (AsyncParameterServerHandler.cuda h)
    (AsyncParameterServerHandler.client_buffer_cache h)
    (AsyncParameterServerHandler.alpha h) v (AsyncParameterServerHandler.outbox h).

(** The reply of the async handler to a [ParameterRequest]. *)
Definition reply_to (sender : Z) (h : AsyncParameterServerHandler.t R) : Sent R :=
  mkSent R ParameterUpdate (AsyncParameterServerHandler._model h) sender.
End Vocabulary.

(** A federation of two clients whose model has two parameters, every
    client taking part in every round. *)
Definition two_clients : SyncParameterServerHandler.t Qc :=
  SyncParameterServerHandler.mk [qc 0 1; qc 0 1] [qc 0 1; qc 0 1] false
    2 float_1_0 2 [None; None] 0 false.

(** The same federation with one client of the two per round. *)
Definition one_of_two : SyncParameterServerHandler.t Qc :=
  SyncParameterServerHandler.mk [qc 0 1; qc 0 1] [qc 0 1; qc 0 1] false
    2 float_0_5 1 [None; None] 0 false.

(** The same federation with a [select_ratio] of 0: the quorum is 0. *)
Definition none_of_two : SyncParameterServerHandler.t Qc :=
  SyncParameterServerHandler.mk [qc 0 1; qc 0 1] [qc 0 1; qc 0 1] false
    2 float_0_0 0 [None; None] 0 false.

Definition async_two_params : AsyncParameterServerHandler.t Qc :=
  AsyncParameterServerHandler.__init__ [qc 0 1; qc 0 1] false.

Definition update_from (sender : Z) (payload : list Qc) : Message Qc :=
  mkMessage Qc sender ParameterUpdate payload.

(** The same handlers on floats. *)
Definition two_clients_float : SyncParameterServerHandler.t float :=
  SyncParameterServerHandler.mk [0%float; 0%float] [0%float; 0%float] false
    2 float_1_0 2 [None; None] 0 false.

Definition async_two_params_float : AsyncParameterServerHandler.t float :=
  AsyncParameterServerHandler.__init__ [0%float; 0%float] false.

(** What [random.sample(population, k)] promises: [k] elements taken at
    distinct positions of the population, and a [ValueError] exactly when
    [k] is negative or larger than the population. *)
Definition sample_contract (random_sample : list Z -> Z -> option (list Z)) : Prop :=
  forall population k,
    match random_sample population k with
    | Some chosen =>
        0 <= k <= Z.of_nat (length population)
        /\ length chosen = Z.to_nat k
        /\ chosen ⊆+ population
    | None => k < 0 \/ Z.of_nat (length population) < k
    end.

(** A sampler that keeps the contract: the first [k] of the population. *)
Definition first_k (population : list Z) (k : Z) : option (list Z) :=
  if (0 <=? k) && (k <=? Z.of_nat (length population))
  then Some (take (Z.to_nat k) population)
  else None.

Ltac unfold_py :=
  unfold bind, ret, raise, get, gets, modify, lift in *.

(** * Properties *)

(** ** Indexing and message kinds *)

Lemma py_index_lt len i n : py_index len i = Some n -> (n < len)%nat.
Proof.
  unfold py_index.
  destruct ((0 <=? i) && (i <? Z.of_nat len)) eqn:E1.
  - intros [= <-]. apply andb_true_iff in E1 as [? ?]. lia.
  - destruct ((- Z.of_nat len <=? i) && (i <? 0)) eqn:E2; [|discriminate].
    intros [= <-]. apply andb_true_iff in E2 as [? ?]. lia.
Qed.

Lemma py_index_rank len sender :
  1 <= sender <= Z.of_nat len ->
  py_index len (sender - 1) = Some (Z.to_nat (sender - 1)).
Proof.
  intros Hr. unfold py_index.
  replace ((0 <=? sender - 1) && (sender - 1 <? Z.of_nat len)) with true; [done|].
  symmetry. apply andb_true_iff. split; lia.
Qed.

Lemma py_index_server_rank len :
  (1 <= len)%nat ->
  py_index len (0 - 1) = py_index len (Z.of_nat len - 1).
Proof.
  intros Hl. rewrite (py_index_rank len (Z.of_nat len)) by lia.
  unfold py_index.
  replace ((0 <=? 0 - 1) && (0 - 1 <? Z.of_nat len)) with false
    by (symmetry; apply andb_false_iff; left; lia).
  replace ((- Z.of_nat len <=? 0 - 1) && (0 - 1 <? 0)) with true
    by (symmetry; apply andb_true_iff; split; lia).
  f_equal; lia.
Qed.

(** ** Construction *)

(** The handlers of the examples are the ones [__init__] constructs. *)
Example two_clients_constructed :
  SyncParameterServerHandler.__init__ [qc 0 1; qc 0 1] 2 false float_1_0
  = inr two_clients.
Proof. reflexivity. Qed.

Example one_of_two_constructed :
  SyncParameterServerHandler.__init__ [qc 0 1; qc 0 1] 2 false float_0_5
  = inr one_of_two.
Proof. reflexivity. Qed.

Example none_of_two_constructed :
  SyncParameterServerHandler.__init__ [qc 0 1; qc 0 1] 2 false float_0_0
  = inr none_of_two.
Proof. reflexivity. Qed.

Example two_clients_float_constructed :
  SyncParameterServerHandler.__init__ [0%float; 0%float] 2 false float_1_0
  = inr two_clients_float.
Proof. reflexivity. Qed.

(** The literals are the floats Python reads. *)
Example float_literals :
  Prim2SF 0%float = float_0_0
  /\ Prim2SF 0x1.28f5c28f5c28fp-2%float = float_0_29
  /\ Prim2SF 0.5%float = float_0_5
  /\ Prim2SF 0x1.6666666666666p-1%float = float_0_7
  /\ Prim2SF 1%float = float_1_0.
Proof. vm_compute. repeat split. Qed.

(** The quorum is the truncation of the float product, not of the exact
    one: the floats 0.7 and 10 have the product 7.0, where the exact
    product of their values lies below 7. *)
Example quorum_seven_of_ten :
  (exists x, py_float_mul_int float_0_7 10 = inr x /\ py_int x = inr 7)
  /\ 6305039478318694 * 10 < 7 * 2 ^ 53.
Proof. split; [eexists; split; reflexivity|reflexivity]. Qed.

(** The floats 0.29 and 100 have the product 28.999999999999996, where
    the exact product of 0.29 and 100 is 29: the quorum is 28. *)
Example quorum_28_of_100 :
  exists x, py_float_mul_int float_0_29 100 = inr x /\ py_int x = inr 28.
Proof. eexists. split; reflexivity. Qed.

(** Above [2 ^ 53] not every number of clients is a float: with the
    ratio 1.0 the quorum of [2 ^ 53 + 1] clients is [2 ^ 53]. *)
Example quorum_above_exact_floats :
  exists x,
    py_float_mul_int float_1_0 (2 ^ 53 + 1) = inr x /\ py_int x = inr (2 ^ 53).
Proof. eexists. split; vm_compute; reflexivity. Qed.

(** ** Float arithmetic of the quorum *)

(** The number of binary digits of a positive number. *)
Lemma digits2_pos_bounds p :
  2 ^ (Zpos (digits2_pos p) - 1) <= Zpos p < 2 ^ Zpos (digits2_pos p).
Proof.
  induction p as [p IH|p IH|]; simpl digits2_pos.
  - rewrite Pos2Z.inj_succ. change (Zpos p~1) with (2 * Zpos p + 1).
    replace (Z.succ (Zpos (digits2_pos p)) - 1)
      with (Z.succ (Zpos (digits2_pos p) - 1)) by lia.
    rewrite !Z.pow_succ_r by lia.
    revert IH. generalize (2 ^ (Zpos (digits2_pos p) - 1)), (2 ^ Zpos (digits2_pos p)).
    intros lo hi [? ?]. split; lia.
  - rewrite Pos2Z.inj_succ. change (Zpos p~0) with (2 * Zpos p).
    replace (Z.succ (Zpos (digits2_pos p)) - 1)
      with (Z.succ (Zpos (digits2_pos p) - 1)) by lia.
    rewrite !Z.pow_succ_r by lia.
    revert IH. generalize (2 ^ (Zpos (digits2_pos p) - 1)), (2 ^ Zpos (digits2_pos p)).
    intros lo hi [? ?]. split; lia.
  - simpl. lia.
Qed.

Lemma digits2_pos_unique p d :
  2 ^ (d - 1) <= Zpos p < 2 ^ d -> Zpos (digits2_pos p) = d.
Proof.
  intros [Hl Hu]. pose proof (digits2_pos_bounds p) as [Bl Bu].
  assert (0 <= d).
  { destruct (Z.leb_spec 0 d); [done|]. rewrite Z.pow_neg_r in Hu by lia. lia. }
  assert (Zpos (digits2_pos p) - 1 < d).
  { apply (Z.pow_lt_mono_r_iff 2); lia. }
  assert (d - 1 < Zpos (digits2_pos p)).
  { destruct (Z.eq_dec d 0) as [->|]; [lia|].
    apply (Z.pow_lt_mono_r_iff 2); lia. }
  lia.
Qed.

Lemma digits2_pos_le p k :
  0 <= k -> Zpos p < 2 ^ k -> Zpos (digits2_pos p) <= k.
Proof.
  intros Hk Hu. pose proof (digits2_pos_bounds p) as [Bl _].
  assert (Zpos (digits2_pos p) - 1 < k); [|lia].
  apply (Z.pow_lt_mono_r_iff 2); lia.
Qed.

Lemma iter_xO_mul p k : Zpos (Pos.iter xO p k) = Zpos p * 2 ^ Zpos k.
Proof.
  induction k as [|k IH] using Pos.peano_ind.
  - simpl. lia.
  - rewrite Pos.iter_succ, Pos2Z.inj_xO, IH, Pos2Z.inj_succ, Z.pow_succ_r by lia. lia.
Qed.

(** After [j] halvings of [M] the record holds the quotient and tells
    whether anything was shifted out. *)
Lemma shr_1_spec M j mrs :
  0 <= M -> 0 <= j ->
  shr_m mrs = M / 2 ^ j ->
  (orb (shr_r mrs) (shr_s mrs) = false <-> M mod 2 ^ j = 0) ->
  shr_m (shr_1 mrs) = M / 2 ^ (j + 1)
  /\ (orb (shr_r (shr_1 mrs)) (shr_s (shr_1 mrs)) = false
      <-> M mod 2 ^ (j + 1) = 0).
Proof.
  intros HM Hj Hm Hf. destruct mrs as [m r s]. simpl in Hm, Hf.
  assert (Hpow : 0 < 2 ^ j) by (apply Z.pow_pos_nonneg; lia).
  assert (Hdiv : M / 2 ^ (j + 1) = m / 2).
  { rewrite Z.pow_add_r, Z.pow_1_r by lia. rewrite <- Z.div_div by lia.
    by rewrite Hm. }
  assert (Hmod : M mod 2 ^ (j + 1) = M mod 2 ^ j + 2 ^ j * (m mod 2)).
  { rewrite Z.pow_add_r, Z.pow_1_r by lia. rewrite Z.rem_mul_r by lia.
    by rewrite Hm. }
  assert (Hm0 : 0 <= m) by (rewrite Hm; apply Z.div_pos; lia).
  pose proof (Z.mod_pos_bound M (2 ^ j) Hpow) as Hb.
  rewrite Hdiv, Hmod.
  destruct m as [|[q|q|]|q]; simpl; try lia.
  - split; [reflexivity|].
    rewrite Z.mod_0_l, Z.mul_0_r, Z.add_0_r by lia. exact Hf.
  - replace (Zpos q~1) with (1 + Zpos q * 2) by lia.
    rewrite Z.div_add, Z.mod_add by lia.
    change (1 `div` 2) with 0. change (1 `mod` 2) with 1.
    split; [reflexivity|]. split; [done|].
    revert Hpow Hb. generalize (2 ^ j), (M `mod` 2 ^ j). intros; lia.
  - replace (Zpos q~0) with (Zpos q * 2) by lia.
    rewrite Z.div_mul, Z.mod_mul by lia.
    split; [reflexivity|]. by rewrite Z.mul_0_r, Z.add_0_r.
  - change (1 `mod` 2) with 1. split; [reflexivity|]. split; [done|].
    revert Hpow Hb. generalize (2 ^ j), (M `mod` 2 ^ j). intros; lia.
Qed.

Lemma iter_shr_1_spec M p j mrs :
  0 <= M -> 0 <= j ->
  shr_m mrs = M / 2 ^ j ->
  (orb (shr_r mrs) (shr_s mrs) = false <-> M mod 2 ^ j = 0) ->
  shr_m (SpecFloat.iter_pos shr_1 p mrs) = M / 2 ^ (j + Zpos p)
  /\ (orb (shr_r (SpecFloat.iter_pos shr_1 p mrs)) (shr_s (SpecFloat.iter_pos shr_1 p mrs)) = false
      <-> M mod 2 ^ (j + Zpos p) = 0).
Proof.
  intros HM. revert j mrs.
  induction p as [p IH|p IH|]; intros j mrs Hj Hm Hf; simpl SpecFloat.iter_pos.
  - destruct (shr_1_spec M j mrs HM Hj Hm Hf) as [Hm1 Hf1].
    destruct (IH (j + 1) _ ltac:(lia) Hm1 Hf1) as [Hm2 Hf2].
    destruct (IH (j + 1 + Zpos p) _ ltac:(lia) Hm2 Hf2) as [Hm3 Hf3].
    replace (j + Zpos p~1) with (j + 1 + Zpos p + Zpos p) by lia. done.
  - destruct (IH j _ Hj Hm Hf) as [Hm2 Hf2].
    destruct (IH (j + Zpos p) _ ltac:(lia) Hm2 Hf2) as [Hm3 Hf3].
    replace (j + Zpos p~0) with (j + Zpos p + Zpos p) by lia. done.
  - by apply shr_1_spec.
Qed.

(** [shr] from an exact record: the quotient by [2 ^ n], and the flags
    are down exactly when the division is exact. *)
Lemma shr_spec M e n :
  0 <= M ->
  let k := Z.max 0 n in
  let '(mrs, e') := shr (Build_shr_record M false false) e n in
  e' = e + k
  /\ shr_m mrs = M / 2 ^ k
  /\ (orb (shr_r mrs) (shr_s mrs) = false <-> M mod 2 ^ k = 0).
Proof.
  intros HM. destruct n as [|p|p]; simpl.
  - rewrite Z.div_1_r, Z.mod_1_r. split; [lia|done].
  - destruct (iter_shr_1_spec M p 0 (Build_shr_record M false false))
      as [Hm Hf]; [lia|lia|simpl; by rewrite Z.div_1_r|simpl; by rewrite Z.mod_1_r|].
    split; [lia|]. done.
  - rewrite Z.div_1_r, Z.mod_1_r. split; [lia|done].
Qed.

Lemma round_nearest_even_bounds mrs :
  let m' := round_nearest_even (shr_m mrs) (loc_of_shr_record mrs) in
  shr_m mrs <= m' <= shr_m mrs + 1
  /\ (orb (shr_r mrs) (shr_s mrs) = false -> m' = shr_m mrs).
Proof.
  destruct mrs as [m [|] [|]]; simpl; try (split; [lia|done]).
  destruct (Z.even m); split; try lia; done.
Qed.

Lemma fexp_normal d e :
  d = 53 -> -1074 <= e -> fexp 53 1024 (d + e) = e.
Proof. intros -> He. unfold fexp, emin. lia. Qed.

(** A mantissa of 53 bits with an exponent in range is already rounded. *)
Lemma binary_round_aux_normal s m e :
  Zpos (digits2_pos m) = 53 -> -1074 <= e <= 971 ->
  binary_round_aux 53 1024 s (Zpos m) e loc_Exact = S754_finite s m e.
Proof.
  intros Hd He. unfold binary_round_aux, shr_fexp. simpl Zdigits2.
  rewrite (fexp_normal _ _ Hd) by lia. rewrite Z.sub_diag.
  simpl. rewrite (fexp_normal _ _ Hd) by lia. rewrite Z.sub_diag. simpl.
  change (1024 - 53) with 971. destruct (Z.leb_spec e 971); [done|lia].
Qed.


(** [float(n)] for [0 < n <= 2 ^ 53] is exact: a mantissa of 53 bits and
    an exponent between -52 and 1 with the value [n]. *)
Lemma py_float_of_int_exact n :
  0 < n <= 2 ^ 53 ->
  exists mz ez,
    py_float_of_int n = inr (S754_finite false mz ez)
    /\ Zpos (digits2_pos mz) = 53
    /\ -52 <= ez <= 1
    /\ Zpos mz * 2 ^ (ez + 52) = n * 2 ^ 52.
Proof.
  intros Hn. destruct n as [|p|p]; try lia.
  pose proof (digits2_pos_bounds p) as [Bl Bu].
  assert (Hd : Zpos (digits2_pos p) <= 54) by (apply digits2_pos_le; lia).
  destruct (Z.eq_dec (Zpos (digits2_pos p)) 54) as [E54|N54].
  { rewrite E54 in Bl. assert (p = 9007199254740992%positive) as -> by lia.
    exists 4503599627370496%positive, 1. by vm_compute. }
  unfold py_float_of_int, binary_normalize, binary_round.
  assert (Hf : fexp 53 1024 (Zpos (digits2_pos p) + 0) = Zpos (digits2_pos p) - 53).
  { unfold fexp, emin. lia. }
  rewrite Hf. unfold shl_align.
  destruct (Zpos (digits2_pos p) - 53 - 0) as [|q|q] eqn:Hq; try lia.
  - rewrite binary_round_aux_normal by lia.
    exists p, 0. split; [done|]. split; [lia|]. split; [lia|]. simpl. lia.
  - assert (Hmz : Zpos (Pos.iter xO p q) = Zpos p * 2 ^ Zpos q)
      by apply iter_xO_mul.
    assert (Hdq : Zpos (digits2_pos p) = 53 - Zpos q) by lia.
    assert (Hp52 : 2 ^ 52 = 2 ^ (Zpos (digits2_pos p) - 1) * 2 ^ Zpos q).
    { rewrite <- Z.pow_add_r by lia. f_equal. lia. }
    assert (Hp53 : 2 ^ 53 = 2 ^ Zpos (digits2_pos p) * 2 ^ Zpos q).
    { rewrite <- Z.pow_add_r by lia. f_equal. lia. }
    assert (Hpq : 0 < 2 ^ Zpos q) by (apply Z.pow_pos_nonneg; lia).
    assert (Hdz : Zpos (digits2_pos (Pos.iter xO p q)) = 53).
    { apply digits2_pos_unique. rewrite Hmz. change (53 - 1) with 52.
      rewrite Hp52, Hp53. split.
      - apply Z.mul_le_mono_nonneg_r; lia.
      - apply Z.mul_lt_mono_pos_r; lia. }
    rewrite binary_round_aux_normal by lia.
    exists (Pos.iter xO p q), (Zpos (digits2_pos p) - 53).
    split; [done|]. split; [done|]. split; [lia|].
    rewrite Hmz. rewrite <- Z.mul_assoc, <- Z.pow_add_r by lia.
    f_equal. f_equal. lia.
Qed.

(** Multiplying by [1.0] keeps a normal number. *)
Lemma SFmul_1_0_normal mz ez :
  Zpos (digits2_pos mz) = 53 -> -1074 <= ez <= 971 ->
  SFmul 53 1024 float_1_0 (S754_finite false mz ez) = S754_finite false mz ez.
Proof.
  intros Hd He. unfold SFmul, float_1_0. simpl xorb.
  pose proof (digits2_pos_bounds mz) as [Bl Bu]. rewrite Hd in Bl, Bu.
  change (53 - 1) with 52 in Bl.
  set (M := (4503599627370496 * mz)%positive).
  assert (HM : Zpos M = Zpos mz * 2 ^ 52) by (subst M; lia).
  clearbody M.
  assert (HdM : Zpos (digits2_pos M) = 105).
  { apply digits2_pos_unique. rewrite HM. change (105 - 1) with (52 + 52).
    change 105 with (53 + 52). rewrite !Z.pow_add_r by lia. split.
    - apply Z.mul_le_mono_nonneg_r; lia.
    - apply Z.mul_lt_mono_pos_r; lia. }
  unfold binary_round_aux, shr_fexp. simpl Zdigits2. rewrite HdM.
  assert (Hn : fexp 53 1024 (105 + (-52 + ez)) - (-52 + ez) = 52).
  { unfold fexp, emin. lia. }
  rewrite Hn. unfold shr_record_of_loc at 1.
  pose proof (shr_spec (Zpos M) (-52 + ez) 52 ltac:(lia)) as H1.
  destruct (shr _ (-52 + ez) 52) as [mrs e']. cbv zeta in H1.
  change (Z.max 0 52) with 52 in H1. destruct H1 as (He' & Hm & Hf).
  rewrite HM, Z.div_mul in Hm by lia. rewrite HM, Z.mod_mul in Hf by lia.
  pose proof (round_nearest_even_bounds mrs) as [_ Hx]. cbv zeta in Hx.
  rewrite (Hx (proj2 Hf eq_refl)), Hm.
  replace e' with ez by lia.
  simpl Zdigits2. rewrite (fexp_normal _ _ Hd) by lia. rewrite Z.sub_diag.
  simpl. change (1024 - 53) with 971. destruct (Z.leb_spec ez 971); [done|lia].
Qed.

(** [int] of a float given by its value. *)
Lemma py_int_exact mz ez n :
  -52 <= ez <= 1 -> Zpos mz * 2 ^ (ez + 52) = n * 2 ^ 52 ->
  py_int (S754_finite false mz ez) = inr n.
Proof.
  intros He Hv. unfold py_int. f_equal.
  assert (H52 : 0 < 2 ^ 52) by done.
  destruct (Z.leb_spec 0 ez).
  - rewrite Z.pow_add_r in Hv by lia. rewrite Z.mul_assoc in Hv.
    apply Z.mul_cancel_r in Hv; lia.
  - assert (Hp : 0 < 2 ^ (- ez)) by (apply Z.pow_pos_nonneg; lia).
    assert (H2 : 2 ^ 52 = 2 ^ (- ez) * 2 ^ (ez + 52)).
    { rewrite <- Z.pow_add_r by lia. f_equal. lia. }
    assert (Hq : 0 < 2 ^ (ez + 52)) by (apply Z.pow_pos_nonneg; lia).
    rewrite H2, Z.mul_assoc in Hv. apply Z.mul_cancel_r in Hv; [|lia].
    rewrite Hv. apply Z.div_mul. lia.
Qed.

(** With the ratio [1.0] the quorum is the number of clients, up to
    [2 ^ 53] of them. *)
Lemma quorum_of_ratio_1_0 n :
  0 < n <= 2 ^ 53 ->
  exists product,
    py_float_mul_int float_1_0 n = inr product /\ py_int product = inr n.
Proof.
  intros Hn. destruct (py_float_of_int_exact n Hn) as (mz & ez & Hy & Hd & He & Hv).
  unfold py_float_mul_int. rewrite Hy.
  exists (S754_finite false mz ez). split.
  - f_equal. apply SFmul_1_0_normal; [done|lia].
  - by apply py_int_exact.
Qed.



(** ** Message kinds *)

Lemma MessageCode_eqb_eq a b : MessageCode_eqb a b = true <-> a = b.
Proof.
  split.
  - destruct a, b; simpl; try discriminate; try reflexivity.
    intros E. apply Z.eqb_eq in E. by subst.
  - intros <-. destruct a; simpl; try reflexivity. apply Z.eqb_refl.
Qed.

Lemma MessageCode_eqb_neq a b : a <> b -> MessageCode_eqb a b = false.
Proof.
  intros Hne. destruct (MessageCode_eqb a b) eqn:E; [|done].
  apply MessageCode_eqb_eq in E. contradiction.
Qed.

(** ** One call of the sync handler's [receive] *)

Section SyncReceive.
Context {R : Type} `{Scalar R}.
Implicit Types (h : SyncParameterServerHandler.t R) (payload : Tensor (R:=R)).

(** What [__init__] returns when it does not raise. *)
Lemma init_inv model n cuda ratio h :
  SyncParameterServerHandler.__init__ (R:=R) model n cuda ratio = inr h ->
  exists product,
    py_float_mul_int ratio n = inr product
    /\ py_int product = inr (SyncParameterServerHandler.round_num h)
    /\ h = SyncParameterServerHandler.mk model model cuda n ratio
             (SyncParameterServerHandler.round_num h)
             (SyncParameterServerHandler.empty_cache n) 0 false.
Proof.
  unfold SyncParameterServerHandler.__init__.
  destruct (py_float_mul_int ratio n) as [e|product]; [discriminate|].
  destruct (py_int product) as [e|k] eqn:Hk; [discriminate|].
  intros [= <-]. by exists product.
Qed.

Lemma init_cache_sized model n cuda ratio h :
  SyncParameterServerHandler.__init__ (R:=R) model n cuda ratio = inr h ->
  cache_sized h.
Proof.
  intros Hi. apply init_inv in Hi as (_ & _ & _ & ->).
  unfold cache_sized, SyncParameterServerHandler.empty_cache. simpl.
  apply length_replicate.
Qed.

Lemma receive_occupied h sender payload n (t : Tensor (R:=R)) :
  py_index (length (SyncParameterServerHandler.client_buffer_cache h)) (sender - 1)
    = Some n ->
  SyncParameterServerHandler.client_buffer_cache h !! n = Some (Some t) ->
  SyncParameterServerHandler.receive sender ParameterUpdate payload h
    = Returned tt h.
Proof.
  intros Hi Hs. unfold SyncParameterServerHandler.receive, getitem.
  simpl. unfold_py. rewrite Hi, Hs. reflexivity.
Qed.

Lemma receive_empty h sender payload n :
  py_index (length (SyncParameterServerHandler.client_buffer_cache h)) (sender - 1)
    = Some n ->
  SyncParameterServerHandler.client_buffer_cache h !! n = Some None ->
  SyncParameterServerHandler.receive sender ParameterUpdate payload h =
    if SyncParameterServerHandler.buffer_cnt h + 1
       =? SyncParameterServerHandler.round_num h
    then SyncParameterServerHandler.aggregate (accepted n payload h)
    else Returned tt (accepted n payload h).
Proof.
  intros Hi Hs.
  unfold SyncParameterServerHandler.receive, getitem, setitem.
  simpl. unfold_py. rewrite Hi, Hs. simpl. rewrite Hi. cbn.
  destruct (_ =? _); reflexivity.
Qed.

Lemma receive_out_of_range h sender payload :
  py_index (length (SyncParameterServerHandler.client_buffer_cache h)) (sender - 1)
    = None ->
  SyncParameterServerHandler.receive sender ParameterUpdate payload h
    = Raised IndexError h.
Proof.
  intros Hi. unfold SyncParameterServerHandler.receive, getitem.
  simpl. unfold_py. rewrite Hi. reflexivity.
Qed.

Lemma cache_slot_inv h sender o :
  cache_slot h sender = Some o ->
  exists n,
    py_index (length (SyncParameterServerHandler.client_buffer_cache h)) (sender - 1)
      = Some n
    /\ SyncParameterServerHandler.client_buffer_cache h !! n = Some o.
Proof.
  unfold cache_slot. destruct (py_index _ _) as [n|]; [|discriminate].
  intros Hs. by exists n.
Qed.

(** The aggregation step fails only inside the torch calls. *)
Lemma aggregate_not_IndexError h h' :
  SyncParameterServerHandler.aggregate h <> Raised IndexError h'.
Proof.
  unfold SyncParameterServerHandler.aggregate, Torch.stack, Torch.assign_all.
  unfold bind, ret, raise, get, gets, modify, lift.
  destruct (Torch.tensors _) as [[|t ts]|]; try discriminate.
  match goal with |- context [forallb ?f ts] => destruct (forallb f ts) end;
    [|discriminate].
  unfold ret, raise. cbv beta iota.
  match goal with |- context [(?a =? ?b)%nat] => destruct (a =? b)%nat end;
    [discriminate|].
  destruct (Torch.mean_dim0 _) as [|x [|y l]]; discriminate.
Qed.

Lemma receive_other_kind h sender code payload :
  code <> ParameterUpdate ->
  SyncParameterServerHandler.receive sender code payload h
    = Raised Exception_Undefined_message_type h.
Proof.
  intros Hc. unfold SyncParameterServerHandler.receive.
  rewrite (MessageCode_eqb_neq _ _ Hc). reflexivity.
Qed.

(** C2: a [ParameterUpdate] for a slot that is occupied is dropped, the
    handler stays as it is; and of two updates of one rank that arrive
    before the round completes only the first is counted:
    [buffer_cnt] goes up by one over the pair. *)
Theorem sync_duplicate_update_dropped h sender payload payload' :
  (forall t, cache_slot h sender = Some (Some t) ->
     SyncParameterServerHandler.receive sender ParameterUpdate payload' h
       = Returned tt h)
  /\ (cache_slot h sender = Some None ->
      SyncParameterServerHandler.buffer_cnt h + 1
        <> SyncParameterServerHandler.round_num h ->
      exists h1,
        SyncParameterServerHandler.receive sender ParameterUpdate payload h
          = Returned tt h1
        /\ SyncParameterServerHandler.buffer_cnt h1
           = SyncParameterServerHandler.buffer_cnt h + 1
        /\ cache_slot h1 sender = Some (Some payload)
        /\ SyncParameterServerHandler.receive sender ParameterUpdate payload' h1
           = Returned tt h1).
Proof.
  split.
  - intros t Hs. apply cache_slot_inv in Hs as (n & Hi & Hn).
    by apply (receive_occupied h sender payload' n t).
  - intros Hs Hq. apply cache_slot_inv in Hs as (n & Hi & Hn).
    exists (accepted n payload h).
    assert (Hlen : length (SyncParameterServerHandler.client_buffer_cache
                             (accepted n payload h))
                   = length (SyncParameterServerHandler.client_buffer_cache h))
      by (simpl; apply length_insert).
    assert (Hslot : cache_slot (accepted n payload h) sender = Some (Some payload)).
    { unfold cache_slot. rewrite Hlen, Hi. simpl.
      apply list_lookup_insert_eq. by apply py_index_lt in Hi. }
    split; [|split; [reflexivity|split; [exact Hslot|]]].
    + rewrite (receive_empty h sender payload n Hi Hn).
      destruct (Z.eqb_spec (SyncParameterServerHandler.buffer_cnt h + 1)
                  (SyncParameterServerHandler.round_num h)); [contradiction|done].
    + apply cache_slot_inv in Hslot as (n' & Hi' & Hn').
      by apply (receive_occupied _ sender payload' n' payload).
Qed.

(** C8: a message of any kind but [ParameterUpdate] makes the sync
    handler's [receive] raise [Exception("Undefined message type!")];
    the handler is left as it was. *)
Theorem sync_receive_other_kind_fatal h sender code payload :
  code <> ParameterUpdate ->
  SyncParameterServerHandler.receive sender code payload h
    = Raised Exception_Undefined_message_type h.
Proof. apply receive_other_kind. Qed.

(** C10: [receive] does not check the sender against the client ranks.
    In a federation of at least one client a [ParameterUpdate] of rank 0
    goes where one of rank [client_num] goes: slot [-1] is the last
    slot, and no [IndexError] is raised.  When that slot holds a
    contribution the message is dropped.  When it is empty the payload
    is written to the last slot and [buffer_cnt] goes up by one, every
    other slot and field staying as it was; [receive] then returns,
    unless the quorum is reached, where the aggregation runs on that
    handler and decides the outcome. *)
Theorem sync_server_rank_fills_last_slot h payload :
  cache_sized h ->
  1 <= SyncParameterServerHandler.client_num h ->
  let last := Z.to_nat (SyncParameterServerHandler.client_num h - 1) in
  cache_slot h 0 = cache_slot h (SyncParameterServerHandler.client_num h)
  /\ SyncParameterServerHandler.receive 0 ParameterUpdate payload h
     = SyncParameterServerHandler.receive
         (SyncParameterServerHandler.client_num h) ParameterUpdate payload h
  /\ (forall h',
        SyncParameterServerHandler.receive 0 ParameterUpdate payload h
        <> Raised IndexError h')
  /\ (forall t,
        SyncParameterServerHandler.client_buffer_cache h !! last = Some (Some t) ->
        SyncParameterServerHandler.receive 0 ParameterUpdate payload h
        = Returned tt h)
  /\ (SyncParameterServerHandler.client_buffer_cache h !! last = Some None ->
      exists h1,
        SyncParameterServerHandler.client_buffer_cache h1 !! last
        = Some (Some payload)
        /\ (forall j, j <> last ->
              SyncParameterServerHandler.client_buffer_cache h1 !! j
              = SyncParameterServerHandler.client_buffer_cache h !! j)
        /\ SyncParameterServerHandler.buffer_cnt h1
           = SyncParameterServerHandler.buffer_cnt h + 1
        /\ SyncParameterServerHandler._buffer h1
           = SyncParameterServerHandler._buffer h
        /\ SyncParameterServerHandler._model h1
           = SyncParameterServerHandler._model h
        /\ SyncParameterServerHandler.update_flag h1
           = SyncParameterServerHandler.update_flag h
        /\ SyncParameterServerHandler.client_num h1
           = SyncParameterServerHandler.client_num h
        /\ SyncParameterServerHandler.round_num h1
           = SyncParameterServerHandler.round_num h
        /\ SyncParameterServerHandler.receive 0 ParameterUpdate payload h
           = if SyncParameterServerHandler.buffer_cnt h + 1
                =? SyncParameterServerHandler.round_num h
             then SyncParameterServerHandler.aggregate h1
             else Returned tt h1).
Proof.
  intros Hsz Hn last. unfold cache_sized in Hsz.
  assert (Hidx : py_index (length (SyncParameterServerHandler.client_buffer_cache h))
                   (0 - 1)
                 = Some last).
  { rewrite py_index_server_rank by (rewrite Hsz; lia).
    rewrite py_index_rank by lia. f_equal. rewrite Hsz. subst last. lia. }
  assert (Hidx' : py_index (length (SyncParameterServerHandler.client_buffer_cache h))
                    (SyncParameterServerHandler.client_num h - 1)
                  = Some last).
  { apply py_index_rank. rewrite Hsz. lia. }
  assert (Hlt : (last < length (SyncParameterServerHandler.client_buffer_cache h))%nat).
  { rewrite Hsz. subst last. lia. }
  assert (Hslot : cache_slot h 0
                  = cache_slot h (SyncParameterServerHandler.client_num h)).
  { unfold cache_slot. by rewrite Hidx, Hidx'. }
  split; [exact Hslot|].
  destruct (SyncParameterServerHandler.client_buffer_cache h !! last)
    as [[t|]|] eqn:E.
  - rewrite (receive_occupied h 0 payload last t Hidx E).
    rewrite (receive_occupied h _ payload last t Hidx' E).
    split; [reflexivity|]. split; [discriminate|]. split; [done|discriminate].
  - rewrite (receive_empty h 0 payload last Hidx E).
    rewrite (receive_empty h _ payload last Hidx' E).
    split; [reflexivity|]. split; [|split; [discriminate|]].
    + intros h'. destruct (_ =? _); [apply aggregate_not_IndexError|discriminate].
    + intros _. exists (accepted last payload h). simpl.
      split; [by apply list_lookup_insert_eq|].
      split; [intros j Hj; by apply list_lookup_insert_ne|].
      by repeat split.
  - apply lookup_ge_None in E. lia.
Qed.
End SyncReceive.

(** ** A round of the sync handler *)

Section SyncRound.
Context {R : Type} `{Scalar R}.
Implicit Types (h : SyncParameterServerHandler.t R) (m : Message R)
  (ms : list (Message R)) (cache : list (option (Tensor (R:=R)))).

Lemma handler_eq h h' :
  SyncParameterServerHandler._model h = SyncParameterServerHandler._model h' ->
  SyncParameterServerHandler._buffer h = SyncParameterServerHandler._buffer h' ->
  SyncParameterServerHandler.cuda h = SyncParameterServerHandler.cuda h' ->
  SyncParameterServerHandler.client_num h = SyncParameterServerHandler.client_num h' ->
  SyncParameterServerHandler.select_ratio h
    = SyncParameterServerHandler.select_ratio h' ->
  SyncParameterServerHandler.round_num h = SyncParameterServerHandler.round_num h' ->
  SyncParameterServerHandler.client_buffer_cache h
    = SyncParameterServerHandler.client_buffer_cache h' ->
  SyncParameterServerHandler.buffer_cnt h = SyncParameterServerHandler.buffer_cnt h' ->
  SyncParameterServerHandler.update_flag h
    = SyncParameterServerHandler.update_flag h' ->
  h = h'.
Proof. destruct h, h'. simpl. intros. by subst. Qed.

Lemma serve_app {St} (recv : Z -> MessageCode -> Tensor (R:=R) -> M St unit)
    ms ms' (s : St) :
  serve recv (ms ++ ms') s = (serve recv ms ;; serve recv ms') s.
Proof.
  revert s. induction ms as [|m ms IH]; intros s; simpl; [done|].
  unfold bind in *. destruct (recv _ _ _ s); [apply IH|done].
Qed.

Lemma fill_length cache ms : length (fill cache ms) = length cache.
Proof.
  revert cache. induction ms as [|m ms IH]; intros cache; simpl; [done|].
  unfold fill in *. simpl. rewrite IH. apply length_insert.
Qed.

Lemma fill_snoc cache ms m :
  fill cache (ms ++ [m])
  = <[Z.to_nat (msg_sender m - 1) := Some (msg_payload m)]> (fill cache ms).
Proof. unfold fill. by rewrite foldl_app. Qed.

Lemma fill_lookup_other cache ms (i : nat) :
  (forall m, In m ms -> Z.to_nat (msg_sender m - 1) <> i) ->
  fill cache ms !! i = cache !! i.
Proof.
  revert cache. induction ms as [|m ms IH]; intros cache Hne; [done|].
  unfold fill in *. simpl. rewrite IH by (intros; apply Hne; by right).
  apply list_lookup_insert_ne. apply Hne. by left.
Qed.

(** The order in which distinct clients fill their slots is immaterial. *)
Lemma fill_perm ms ms' :
  Permutation ms ms' ->
  NoDup (map msg_sender ms) ->
  Forall (fun m => 1 <= msg_sender m) ms ->
  forall cache, fill cache ms = fill cache ms'.
Proof.
  induction 1 as [|x l l' Hp IH|x y l|l l' l'' Hp1 IH1 Hp2 IH2];
    intros Hnd Hpos cache.
  - reflexivity.
  - unfold fill in *. simpl. apply IH.
    + by inversion Hnd.
    + by inversion Hpos.
  - unfold fill. simpl. f_equal.
    apply list_insert_insert_ne.
    inversion Hpos as [|? ? Hy Hpos']. inversion Hpos' as [|? ? Hx _]. subst.
    simpl in Hnd. apply list.NoDup_cons in Hnd as [Hnotin _].
    intros Heq. apply Hnotin. apply list_elem_of_In. left. lia.
  - rewrite IH1 by done. apply IH2.
    + eapply NoDup_Permutation_proper; [|exact Hnd].
      symmetry. by apply Permutation_map.
    + eapply Permutation_Forall; [exact Hp1|exact Hpos].
Qed.

(** Contributions of distinct clients whose slots are empty, fewer than
    the quorum still misses: all are stored and counted. *)
Lemma serve_accumulate ms : forall h,
  Forall (client_update
            (Z.of_nat (length (SyncParameterServerHandler.client_buffer_cache h)))) ms ->
  NoDup (map msg_sender ms) ->
  (forall m, In m ms ->
     SyncParameterServerHandler.client_buffer_cache h
       !! Z.to_nat (msg_sender m - 1) = Some None) ->
  SyncParameterServerHandler.buffer_cnt h + Z.of_nat (length ms)
    < SyncParameterServerHandler.round_num h ->
  serve SyncParameterServerHandler.receive ms h
  = Returned tt
      (SyncParameterServerHandler.set_client_buffer_cache
         (fill (SyncParameterServerHandler.client_buffer_cache h) ms)
         (SyncParameterServerHandler.set_buffer_cnt
            (SyncParameterServerHandler.buffer_cnt h + Z.of_nat (length ms)) h)).
Proof.
  induction ms as [|m ms IH]; intros h Hall Hnd Hempty Hlt.
  - simpl. unfold ret. f_equal. apply handler_eq; simpl; try reflexivity. lia.
  - inversion Hall as [|? ? [Hcode Hrank] Hall']. subst.
    simpl in Hnd. apply list.NoDup_cons in Hnd as [Hnotin Hnd'].
    simpl. unfold bind at 1. rewrite Hcode.
    rewrite (receive_empty h (msg_sender m) (msg_payload m)
               (Z.to_nat (msg_sender m - 1)))
      by (try apply py_index_rank; try apply Hempty; auto; by left).
    destruct (Z.eqb_spec (SyncParameterServerHandler.buffer_cnt h + 1)
                (SyncParameterServerHandler.round_num h)) as [E|_].
    { simpl length in Hlt. lia. }
    rewrite IH.
    + f_equal. apply handler_eq; simpl; try reflexivity. lia.
    + simpl. rewrite length_insert. exact Hall'.
    + exact Hnd'.
    + intros m' Hin. simpl.
      rewrite list_lookup_insert_ne; [apply Hempty; by right|].
      intros Heq. apply Hnotin. apply list_elem_of_In, in_map_iff.
      exists m'. split; [|done].
      rewrite list.Forall_forall in Hall'.
      destruct (Hall' m') as [_ ?]; [by apply list_elem_of_In|]. lia.
    + simpl. simpl length in Hlt. lia.
Qed.

(** As many such contributions as the quorum still misses: the last one
    triggers the aggregation, on the cache that holds them all. *)
Lemma serve_round ms h :
  ms <> [] ->
  Forall (client_update
            (Z.of_nat (length (SyncParameterServerHandler.client_buffer_cache h)))) ms ->
  NoDup (map msg_sender ms) ->
  (forall m, In m ms ->
     SyncParameterServerHandler.client_buffer_cache h
       !! Z.to_nat (msg_sender m - 1) = Some None) ->
  SyncParameterServerHandler.buffer_cnt h + Z.of_nat (length ms)
    = SyncParameterServerHandler.round_num h ->
  serve SyncParameterServerHandler.receive ms h
  = SyncParameterServerHandler.aggregate
      (SyncParameterServerHandler.set_client_buffer_cache
         (fill (SyncParameterServerHandler.client_buffer_cache h) ms)
         (SyncParameterServerHandler.set_buffer_cnt
            (SyncParameterServerHandler.round_num h) h)).
Proof.
  intros Hne Hall Hnd Hempty Hcnt.
  destruct (exists_last Hne) as (ms0 & m & ->). clear Hne.
  apply list.Forall_app in Hall as [Hall0 Hm].
  inversion Hm as [|? ? [Hcode Hrank] _]. subst.
  rewrite map_app in Hnd. apply list.NoDup_app in Hnd as (Hnd0 & Hdisj & _).
  rewrite length_app in Hcnt. simpl in Hcnt.
  rewrite serve_app. unfold bind at 1.
  rewrite serve_accumulate; try done.
  2: { intros m' Hin. apply Hempty. apply in_or_app. by left. }
  2: { lia. }
  simpl. unfold bind at 1. rewrite Hcode.
  rewrite (receive_empty _ (msg_sender m) (msg_payload m)
             (Z.to_nat (msg_sender m - 1))).
  - simpl.
    destruct (Z.eqb_spec
                (SyncParameterServerHandler.buffer_cnt h + Z.of_nat (length ms0) + 1)
                (SyncParameterServerHandler.round_num h)) as [E|E]; [|lia].
    match goal with
    | |- match ?a ?x with _ => _ end = ?a ?y =>
        replace x with y; [by destruct (a y) as [[] ?|? ?]|]
    end.
    apply handler_eq; simpl; try reflexivity; [|lia].
    by rewrite fill_snoc.
  - simpl. rewrite fill_length. by apply py_index_rank.
  - simpl. rewrite fill_lookup_other.
    + apply Hempty. apply in_or_app. right. by left.
    + intros m' Hin Heq. apply (Hdisj (msg_sender m')).
      * apply list_elem_of_In, in_map. exact Hin.
      * rewrite list.Forall_forall in Hall0.
        destruct (Hall0 m') as [_ ?]; [by apply list_elem_of_In|].
        replace (msg_sender m') with (msg_sender m) by lia.
        apply list_elem_of_In. by left.
Qed.

Lemma round_start_slots h ms :
  round_start h ->
  Forall (client_update (SyncParameterServerHandler.client_num h)) ms ->
  Forall (client_update
            (Z.of_nat (length (SyncParameterServerHandler.client_buffer_cache h)))) ms
  /\ (forall m, In m ms ->
        SyncParameterServerHandler.client_buffer_cache h
          !! Z.to_nat (msg_sender m - 1) = Some None).
Proof.
  intros [Hcache _] Hall. rewrite Hcache.
  unfold SyncParameterServerHandler.empty_cache. rewrite length_replicate.
  rewrite list.Forall_forall in Hall. split.
  - apply list.Forall_forall. intros m Hin.
    destruct (Hall m Hin) as [Hc Hr]. split; [done|lia].
  - intros m Hin. apply list_elem_of_In in Hin.
    destruct (Hall m Hin) as [_ Hr]. apply lookup_replicate_2. lia.
Qed.

(** C6: from the start of a round, contributions of distinct client
    ranks, no more of them than the quorum, leave the handler in the
    same state and [receive] with the same outcome in whatever order
    they are delivered; so the global buffer is the same. *)
Theorem sync_round_order_independent h ms ms' :
  round_start h ->
  Forall (client_update (SyncParameterServerHandler.client_num h)) ms ->
  NoDup (map msg_sender ms) ->
  Z.of_nat (length ms) <= SyncParameterServerHandler.round_num h ->
  Permutation ms ms' ->
  serve SyncParameterServerHandler.receive ms h
  = serve SyncParameterServerHandler.receive ms' h.
Proof.
  intros Hstart Hall Hnd Hlen Hp.
  assert (Hall' : Forall (client_update (SyncParameterServerHandler.client_num h)) ms')
    by (eapply Permutation_Forall; eauto).
  assert (Hnd' : NoDup (map msg_sender ms')).
  { eapply NoDup_Permutation_proper; [|exact Hnd].
    symmetry. by apply Permutation_map. }
  assert (Hlen' : length ms' = length ms) by (symmetry; by apply Permutation_length).
  assert (Hpos : Forall (fun m => 1 <= msg_sender m) ms).
  { eapply Forall_impl; [|exact Hall]. by intros m [_ [? _]]. }
  destruct (round_start_slots h ms Hstart Hall) as [Hin Hempty].
  destruct (round_start_slots h ms' Hstart Hall') as [Hin' Hempty'].
  destruct Hstart as [_ Hzero].
  destruct (Z.eq_dec (Z.of_nat (length ms)) (SyncParameterServerHandler.round_num h))
    as [Heq|Hneq].
  - destruct ms as [|m0 ms0].
    + apply Permutation_nil in Hp. by subst.
    + rewrite !serve_round; try done; try lia.
      * by rewrite (fill_perm _ _ Hp Hnd Hpos).
      * intros ->. apply Permutation_sym, Permutation_nil in Hp. discriminate.
  - rewrite !serve_accumulate; try done; try lia.
    by rewrite (fill_perm _ _ Hp Hnd Hpos), Hlen'.
Qed.
End SyncRound.

(** ** The aggregation step *)

Section SyncAggregate.
Context {R : Type} `{Scalar R}.
Implicit Types (h : SyncParameterServerHandler.t R) (m : Message R)
  (ms : list (Message R)) (cache : list (option (Tensor (R:=R))))
  (rows : list (Tensor (R:=R))).

Lemma tensors_map_Some rows : Torch.tensors (map Some rows) = Some rows.
Proof. induction rows as [|t rows IH]; simpl; [done|]. by rewrite IH. Qed.

Lemma tensors_occupied cache rows :
  Torch.tensors cache = Some rows -> occupied cache = length cache.
Proof.
  revert rows. induction cache as [|[t|] cache IH]; intros rows; simpl; try done.
  destruct (Torch.tensors cache) as [ts|]; [|done].
  intros _. f_equal. by apply (IH ts).
Qed.

Lemma occupied_insert cache (i : nat) (t : Tensor (R:=R)) :
  (occupied (<[i := Some t]> cache) <= S (occupied cache))%nat.
Proof.
  revert i. induction cache as [|o cache IH]; intros i; simpl; [lia|].
  destruct i as [|i]; simpl.
  - destruct o; lia.
  - specialize (IH i). destruct o; lia.
Qed.

Lemma occupied_fill cache ms :
  (occupied (fill cache ms) <= occupied cache + length ms)%nat.
Proof.
  revert cache. induction ms as [|m ms IH]; intros cache; simpl; [lia|].
  unfold fill in *. simpl.
  etrans; [apply IH|]. pose proof (occupied_insert cache
    (Z.to_nat (msg_sender m - 1)) (msg_payload m)). lia.
Qed.

Lemma occupied_empty_cache n :
  occupied (SyncParameterServerHandler.empty_cache (R:=R) n) = 0%nat.
Proof.
  unfold SyncParameterServerHandler.empty_cache.
  induction (Z.to_nat n) as [|k IH]; simpl; done.
Qed.

(** A slot that is still empty makes [torch.stack] raise: the buffer,
    the model and the round state stay as they are. *)
Lemma aggregate_empty_slot h :
  Torch.tensors (SyncParameterServerHandler.client_buffer_cache h) = None ->
  SyncParameterServerHandler.aggregate h = Raised TypeError h.
Proof.
  intros Hn. unfold SyncParameterServerHandler.aggregate, Torch.stack.
  unfold_py. by rewrite Hn.
Qed.

Lemma length_sum_rows (t : Tensor (R:=R)) rows (n : nat) :
  length t = n -> Forall (fun u => length u = n) rows ->
  length (foldl (zip_with sadd) t rows) = n.
Proof.
  revert t. induction rows as [|u rows IH]; intros t Ht Hall; simpl; [done|].
  inversion Hall as [|? ? Hu Hall']. subst. apply IH; [|done].
  rewrite length_zip_with. lia.
Qed.

(** A cache that is full of vectors of the buffer's length: the buffer
    and the model become their mean, the round state is reset. *)
Lemma aggregate_full h rows :
  SyncParameterServerHandler.client_buffer_cache h = map Some rows ->
  rows <> [] ->
  Forall (fun u => length u = length (SyncParameterServerHandler._buffer h)) rows ->
  SyncParameterServerHandler.aggregate h
  = Returned tt (completed (Torch.mean_dim0 rows) h).
Proof.
  intros Hc Hne Hall.
  destruct rows as [|t ts]; [done|].
  inversion Hall as [|? ? Ht Hts]. subst.
  assert (Hsame : forallb (fun u => (length u =? length t)%nat) ts = true).
  { apply forallb_forall. intros u Hu.
    rewrite list.Forall_forall in Hts. apply Nat.eqb_eq.
    rewrite Ht. apply Hts. by apply list_elem_of_In. }
  assert (Hlen : (length (Torch.mean_dim0 (t :: ts))
                  =? length (SyncParameterServerHandler._buffer h))%nat = true).
  { apply Nat.eqb_eq. unfold Torch.mean_dim0, Torch.sum_dim0.
    rewrite length_map. by apply length_sum_rows. }
  unfold SyncParameterServerHandler.aggregate, Torch.stack, Torch.assign_all.
  unfold bind, ret, raise, get, gets, modify, lift.
  rewrite Hc, tensors_map_Some, Hsame. simpl. rewrite Hlen. reflexivity.
Qed.
End SyncAggregate.

(** ** Rounds with a quorum below and at the number of clients *)

Section SyncQuorum.
Context {R : Type} `{Scalar R}.
Implicit Types (h : SyncParameterServerHandler.t R) (m : Message R)
  (ms : list (Message R)) (cache : list (option (Tensor (R:=R)))).

(** A quorum below the number of clients: the contribution that reaches
    it finds empty slots in the cache, and [torch.stack] raises. *)
Lemma serve_partial_round h ms :
  round_start h ->
  0 < SyncParameterServerHandler.round_num h
    < SyncParameterServerHandler.client_num h ->
  Forall (client_update (SyncParameterServerHandler.client_num h)) ms ->
  NoDup (map msg_sender ms) ->
  Z.of_nat (length ms) = SyncParameterServerHandler.round_num h ->
  serve SyncParameterServerHandler.receive ms h
  = Raised TypeError
      (SyncParameterServerHandler.set_client_buffer_cache
         (fill (SyncParameterServerHandler.client_buffer_cache h) ms)
         (SyncParameterServerHandler.set_buffer_cnt
            (SyncParameterServerHandler.round_num h) h)).
Proof.
  intros Hstart Hq Hall Hnd Hlen.
  destruct (round_start_slots h ms Hstart Hall) as [Hin Hempty].
  destruct Hstart as [Hcache Hzero].
  rewrite serve_round; try done; try lia.
  - apply aggregate_empty_slot. simpl.
    destruct (Torch.tensors _) as [rows|] eqn:E; [|done].
    apply tensors_occupied in E.
    pose proof (occupied_fill (SyncParameterServerHandler.client_buffer_cache h) ms)
      as Hle.
    rewrite fill_length in E. rewrite E in Hle.
    rewrite Hcache in Hle. rewrite occupied_empty_cache in Hle.
    unfold SyncParameterServerHandler.empty_cache in Hle.
    rewrite length_replicate in Hle. lia.
  - intros ->. simpl in Hlen. lia.
Qed.

Lemma fill_in_order ms : forall (pre : list (option (Tensor (R:=R)))),
  map msg_sender ms = seqZ (Z.of_nat (length pre) + 1) (Z.of_nat (length ms)) ->
  fill (pre ++ replicate (length ms) None) ms
  = pre ++ map Some (map msg_payload ms).
Proof.
  induction ms as [|m ms IH]; intros pre Hs.
  - reflexivity.
  - rewrite seqZ_cons in Hs by (simpl; lia).
    simpl in Hs. injection Hs as Hm Hs.
    unfold fill. simpl.
    replace (Z.to_nat (msg_sender m - 1)) with (length pre + 0)%nat by lia.
    rewrite insert_app_r. simpl.
    specialize (IH (pre ++ [Some (msg_payload m)])).
    rewrite <- !app_assoc in IH. simpl in IH. apply IH.
    rewrite Hs, length_app. simpl. f_equal; lia.
Qed.

(** Every client takes part: once each of them has contributed a vector
    of the buffer's length, the buffer and the model are the mean of the
    contributions, taken by client rank, and the round is reset. *)
Theorem sync_full_round_mean h ms :
  round_start h ->
  SyncParameterServerHandler.round_num h = SyncParameterServerHandler.client_num h ->
  0 < SyncParameterServerHandler.round_num h ->
  Forall (client_update (SyncParameterServerHandler.client_num h)) ms ->
  NoDup (map msg_sender ms) ->
  Z.of_nat (length ms) = SyncParameterServerHandler.round_num h ->
  Forall (fun m => length (msg_payload m)
                   = length (SyncParameterServerHandler._buffer h)) ms ->
  exists ranked,
    Permutation ms ranked
    /\ map msg_sender ranked = seqZ 1 (SyncParameterServerHandler.client_num h)
    /\ serve SyncParameterServerHandler.receive ms h
       = Returned tt (completed (Torch.mean_dim0 (map msg_payload ranked)) h).
Proof.
  intros Hstart Hfull Hq Hall Hnd Hlen Hdim.
  assert (Hperm : Permutation (seqZ 1 (SyncParameterServerHandler.client_num h))
                    (map msg_sender ms)).
  { symmetry. apply submseteq_length_Permutation.
    - apply NoDup_submseteq; [done|]. intros x Hx.
      apply list_elem_of_In, in_map_iff in Hx as (m & <- & Hm).
      rewrite list.Forall_forall in Hall.
      destruct (Hall m) as [_ Hr]; [by apply list_elem_of_In|].
      apply elem_of_seqZ. lia.
    - rewrite length_seqZ, length_map. lia. }
  apply Permutation_map_inv in Hperm as (ranked & Hranks & Hp).
  exists ranked. split; [done|]. split; [done|].
  assert (Hpos : Forall (fun m => 1 <= msg_sender m) ms).
  { eapply Forall_impl; [|exact Hall]. by intros m [_ [? _]]. }
  destruct (round_start_slots h ms Hstart Hall) as [Hin Hempty].
  destruct Hstart as [Hcache Hzero].
  assert (Hlen' : length ranked = length ms)
    by (symmetry; by apply Permutation_length).
  rewrite serve_round; try done; try lia.
  2: { intros ->. simpl in Hlen. lia. }
  rewrite (fill_perm _ _ Hp Hnd Hpos).
  assert (Hfill : fill (SyncParameterServerHandler.client_buffer_cache h) ranked
                  = map Some (map msg_payload ranked)).
  { rewrite Hcache. unfold SyncParameterServerHandler.empty_cache.
    replace (Z.to_nat (SyncParameterServerHandler.client_num h))
      with (length ranked) by lia.
    apply (fill_in_order ranked []). simpl. rewrite <- Hranks.
    f_equal. lia. }
  rewrite (aggregate_full _ (map msg_payload ranked)).
  - f_equal.
  - simpl. exact Hfill.
  - destruct ranked; [simpl in Hlen'; lia|done].
  - simpl. apply Forall_map.
    eapply Permutation_Forall; [exact Hp|exact Hdim].
Qed.

(** After a completed round and [start_round] the handler is at the
    start of a round again, with the flag cleared; what the previous
    round cached is gone, so [sync_full_round_mean] holds of the next
    round with the new contributions alone. *)
Theorem sync_completed_round_resets h (buf : Tensor (R:=R)) :
  let h1 := completed buf h in
  SyncParameterServerHandler.update_flag h1 = true
  /\ SyncParameterServerHandler.buffer_cnt h1 = 0
  /\ occupied (SyncParameterServerHandler.client_buffer_cache h1) = 0%nat
  /\ exists h2,
       SyncParameterServerHandler.start_round h1 = Returned tt h2
       /\ SyncParameterServerHandler.is_updated h2 = Returned false h2
       /\ round_start h2
       /\ SyncParameterServerHandler.round_num h2
          = SyncParameterServerHandler.round_num h
       /\ SyncParameterServerHandler.client_num h2
          = SyncParameterServerHandler.client_num h.
Proof.
  intros h1. split; [done|]. split; [done|]. split.
  - apply occupied_empty_cache.
  - eexists. split; [reflexivity|]. by repeat split.
Qed.

(** C1, as the code has it: with a quorum below the number of clients,
    the contribution that reaches the quorum makes [receive] raise
    [TypeError]; the global buffer and the model handle keep their old
    values and are not the mean of the contributions. *)
Theorem sync_partial_quorum_raises h ms :
  round_start h ->
  0 < SyncParameterServerHandler.round_num h
    < SyncParameterServerHandler.client_num h ->
  Forall (client_update (SyncParameterServerHandler.client_num h)) ms ->
  NoDup (map msg_sender ms) ->
  Z.of_nat (length ms) = SyncParameterServerHandler.round_num h ->
  exists h',
    serve SyncParameterServerHandler.receive ms h = Raised TypeError h'
    /\ SyncParameterServerHandler._buffer h' = SyncParameterServerHandler._buffer h
    /\ SyncParameterServerHandler._model h' = SyncParameterServerHandler._model h.
Proof.
  intros Hstart Hq Hall Hnd Hlen. eexists. split.
  - by apply serve_partial_round.
  - by split.
Qed.

(** C4, as the code has it: with a quorum below the number of clients,
    the contribution that reaches the quorum leaves [update_flag] as it
    was, [buffer_cnt] at the quorum and the contributions in the cache:
    the round is not reset. *)
Theorem sync_partial_quorum_no_reset h ms :
  round_start h ->
  0 < SyncParameterServerHandler.round_num h
    < SyncParameterServerHandler.client_num h ->
  Forall (client_update (SyncParameterServerHandler.client_num h)) ms ->
  NoDup (map msg_sender ms) ->
  Z.of_nat (length ms) = SyncParameterServerHandler.round_num h ->
  exists h',
    serve SyncParameterServerHandler.receive ms h = Raised TypeError h'
    /\ SyncParameterServerHandler.update_flag h'
       = SyncParameterServerHandler.update_flag h
    /\ SyncParameterServerHandler.buffer_cnt h'
       = SyncParameterServerHandler.round_num h
    /\ SyncParameterServerHandler.client_buffer_cache h'
       <> SyncParameterServerHandler.empty_cache
            (SyncParameterServerHandler.client_num h).
Proof.
  intros Hstart Hq Hall Hnd Hlen. eexists. split.
  - by apply serve_partial_round.
  - split; [done|]. split; [done|]. simpl.
    destruct ms as [|m0 ms0] using rev_ind; [simpl in Hlen; lia|].
    clear IHms0. rewrite fill_snoc. intros Heq.
    apply list.Forall_app in Hall as [_ Hm].
    inversion Hm as [|? ? [_ Hr] _]. subst.
    assert (Hl : (<[Z.to_nat (msg_sender m0 - 1) := Some (msg_payload m0)]>
                    (fill (SyncParameterServerHandler.client_buffer_cache h) ms0))
                 !! Z.to_nat (msg_sender m0 - 1) = Some (Some (msg_payload m0))).
    { apply list_lookup_insert_eq. rewrite fill_length.
      destruct Hstart as [-> _]. unfold SyncParameterServerHandler.empty_cache.
      rewrite length_replicate. lia. }
    rewrite Heq in Hl. unfold SyncParameterServerHandler.empty_cache in Hl.
    apply lookup_replicate_1 in Hl as [Hl _]. discriminate.
Qed.
End SyncQuorum.

(** ** The async handler and the abstract handler *)

Section AsyncReceive.
Context {R : Type} `{Scalar R}.
Implicit Types (h : AsyncParameterServerHandler.t R) (payload : Tensor (R:=R)).

Lemma zip_with_scaled (f g : R -> R) (a b : Tensor (R:=R)) :
  zip_with sadd (map f a) (map g b) = zip_with (fun x y => sadd (f x) (g y)) a b.
Proof.
  revert b. induction a as [|x a IH]; intros [|y b]; simpl; try done.
  by rewrite IH.
Qed.

Lemma async_update_same_length h payload :
  length payload = length (AsyncParameterServerHandler._buffer h) ->
  AsyncParameterServerHandler.update [payload] h = Returned tt (merged payload h).
Proof.
  intros Hlen.
  assert (Hl1 : (length (Torch.scale
                           (ssub (sofZ 1) (AsyncParameterServerHandler.alpha h))
                           (AsyncParameterServerHandler._buffer h))
                 =? length (Torch.scale (AsyncParameterServerHandler.alpha h) payload))%nat
                = true).
  { apply Nat.eqb_eq. unfold Torch.scale. rewrite !length_map. lia. }
  assert (Hl2 : (length (merge (AsyncParameterServerHandler.alpha h)
                           (AsyncParameterServerHandler._buffer h) payload)
                 =? length (AsyncParameterServerHandler._buffer h))%nat = true).
  { apply Nat.eqb_eq. unfold merge. rewrite length_zip_with. lia. }
  unfold AsyncParameterServerHandler.update, Torch.add, Torch.assign_all.
  unfold bind, ret, raise, get, gets, modify, lift.
  rewrite Hl1. unfold Torch.scale. rewrite zip_with_scaled.
  fold (merge (AsyncParameterServerHandler.alpha h)
              (AsyncParameterServerHandler._buffer h) payload).
  unfold ret, raise. cbv beta iota. rewrite Hl2. reflexivity.
Qed.

(** The general part of C5: a [ParameterUpdate] of a vector of the
    buffer's length, from whatever rank, is merged into the buffer and
    loaded into the model. *)
Lemma async_receive_update h sender payload :
  length payload = length (AsyncParameterServerHandler._buffer h) ->
  AsyncParameterServerHandler.receive sender ParameterUpdate payload h
  = Returned tt (merged payload h).
Proof. intros Hlen. by apply async_update_same_length. Qed.

Lemma merged_lookup h payload (i : nat) (b x : R) :
  AsyncParameterServerHandler._buffer h !! i = Some b ->
  payload !! i = Some x ->
  AsyncParameterServerHandler._buffer (merged payload h) !! i
  = Some (sadd (smul (ssub (sofZ 1) (AsyncParameterServerHandler.alpha h)) b)
               (smul (AsyncParameterServerHandler.alpha h) x)).
Proof.
  intros Hb Hx. simpl. unfold merge. apply lookup_zip_with_Some.
  by exists b, x.
Qed.

(** C9: the abstract handler's [receive] and [update] raise
    [NotImplementedError], and so does the async handler on a
    [GradientUpdate], which leaves the handler, its buffer and its model
    as they were. *)
Theorem unimplemented_operations_raise :
  (forall (b : ParameterServerHandler.t R),
     ParameterServerHandler.receive b = Raised NotImplementedError b)
  /\ (forall (b : ParameterServerHandler.t R) model_list,
       ParameterServerHandler.update model_list b = Raised NotImplementedError b)
  /\ (forall h sender payload,
       AsyncParameterServerHandler.receive sender GradientUpdate payload h
       = Raised NotImplementedError h).
Proof. by repeat split. Qed.

(** C7, amended: the sync handler raises on every kind but
    [ParameterUpdate]; the async handler does not raise on a kind
    outside the four it names: [receive] returns and leaves the handler
    as it was. *)
Theorem unexpected_kind_sync_raises_async_ignores sender code payload :
  (forall (h : SyncParameterServerHandler.t R),
     code <> ParameterUpdate ->
     SyncParameterServerHandler.receive sender code payload h
     = Raised Exception_Undefined_message_type h)
  /\ (forall (h : AsyncParameterServerHandler.t R),
       code <> ParameterUpdate -> code <> ParameterRequest ->
       code <> GradientUpdate -> code <> Exit ->
       AsyncParameterServerHandler.receive sender code payload h = Returned tt h).
Proof.
  split.
  - intros h Hc. by apply receive_other_kind.
  - intros h H1 H2 H3 H4. unfold AsyncParameterServerHandler.receive.
    rewrite !MessageCode_eqb_neq by done. reflexivity.
Qed.
End AsyncReceive.

(** ** The client *)

Section Client.
Context {R : Type} `{Scalar R}.
Variable train : Z -> Tensor (R:=R) -> Tensor (R:=R).

(** The method [run] does not call: it hands the buffer to the channel
    as a [ParameterUpdate] for the server. *)
Lemma synchronize_sends (c : ClientCommunicationTopology.t R) buffer :
  ClientSyncTop.synchronize buffer c
  = Returned tt
      (ClientCommunicationTopology.mk
         (ClientCommunicationTopology._backend_buffer c)
         (ClientCommunicationTopology.rank c)
         (ClientCommunicationTopology.world_size c)
         (ClientCommunicationTopology.trained c)
         (ClientCommunicationTopology.outbox c
            ++ [mkSent R ParameterUpdate buffer 0])).
Proof. reflexivity. Qed.

Lemma run_iteration_not_exit (c : ClientCommunicationTopology.t R)
    (frame : Message R) :
  msg_code frame <> Exit ->
  ClientSyncTop.run_iteration train frame c
  = Raised NotImplementedError
      (ClientCommunicationTopology.mk
         (train 2 (msg_payload frame))
         (ClientCommunicationTopology.rank c)
         (ClientCommunicationTopology.world_size c)
         (ClientCommunicationTopology.trained c ++ [2])
         (ClientCommunicationTopology.outbox c)).
Proof.
  intros Hc. unfold ClientSyncTop.run_iteration.
  rewrite (MessageCode_eqb_neq _ _ Hc). reflexivity.
Qed.

(** C3, as the code has it: on a frame of any kind but [Exit] the
    client installs the payload and trains, and then the call of
    [synchronise] raises [NotImplementedError]: nothing is sent, and
    [run] ends there whatever frames would follow. *)
Theorem client_turn_raises_not_implemented
    (c : ClientCommunicationTopology.t R) (frame : Message R)
    (frames : list (Message R)) :
  msg_code frame <> Exit ->
  let c' := ClientCommunicationTopology.mk
              (train 2 (msg_payload frame))
              (ClientCommunicationTopology.rank c)
              (ClientCommunicationTopology.world_size c)
              (ClientCommunicationTopology.trained c ++ [2])
              (ClientCommunicationTopology.outbox c) in
  ClientSyncTop.run_iteration train frame c = Raised NotImplementedError c'
  /\ ClientSyncTop.run train (frame :: frames) c = Raised NotImplementedError c'.
Proof.
  intros Hc c'. split.
  - by apply run_iteration_not_exit.
  - simpl. unfold bind at 1. by rewrite run_iteration_not_exit.
Qed.
End Client.

(** ** The handlers on rational vectors *)

Lemma Qc_list_eq (l l' : list Qc) : map this l = map this l' -> l = l'.
Proof.
  revert l'. induction l as [|x l IH]; intros [|y l']; simpl; try done.
  intros [= Hxy Hl]. f_equal; [|by apply IH].
  apply Qc_is_canon. rewrite Hxy. reflexivity.
Qed.

(** Quorum 2, vectors [1.0, 2.0] and [3.0, 4.0]: the global vector is
    [2.0, 3.0], whichever client is heard first. *)
Example fedavg_two_clients :
  let o := serve SyncParameterServerHandler.receive
             [update_from 2 [qc 3 1; qc 4 1]; update_from 1 [qc 1 1; qc 2 1]]
             two_clients in
  has_returned o = true
  /\ SyncParameterServerHandler._buffer (state_of o) = [qc 2 1; qc 3 1]
  /\ SyncParameterServerHandler._model (state_of o) = [qc 2 1; qc 3 1]
  /\ SyncParameterServerHandler.update_flag (state_of o) = true
  /\ SyncParameterServerHandler.buffer_cnt (state_of o) = 0
  /\ SyncParameterServerHandler.client_buffer_cache (state_of o) = [None; None].
Proof.
  repeat split; try reflexivity; apply Qc_list_eq; vm_compute; reflexivity.
Qed.

Example fedavg_two_clients_float :
  let o := serve SyncParameterServerHandler.receive
             [mkMessage float 2 ParameterUpdate [3%float; 4%float];
              mkMessage float 1 ParameterUpdate [1%float; 2%float]]
             two_clients_float in
  has_returned o = true
  /\ SyncParameterServerHandler._buffer (state_of o) = [2%float; 3%float]
  /\ SyncParameterServerHandler._model (state_of o) = [2%float; 3%float]
  /\ SyncParameterServerHandler.update_flag (state_of o) = true.
Proof. vm_compute. repeat split. Qed.

(** C5: a [ParameterUpdate] of a vector of the buffer's length makes the
    async handler's buffer [(1 - alpha) * buffer + alpha * payload],
    element by element, and the model handle follows; the sender plays no
    part, so repeated updates of one rank are all applied.  With
    [alpha = 0.5], the buffer [0, 0] and the update [2, 4] give [1, 2],
    and a further update [2, 0] of the same rank gives [1.5, 1]. *)
Theorem async_parameter_update_merges :
  (forall (R : Type) (HS : Scalar R) (h : AsyncParameterServerHandler.t R)
          (sender : Z) (payload : Tensor (R:=R)),
     length payload = length (AsyncParameterServerHandler._buffer h) ->
     AsyncParameterServerHandler.receive sender ParameterUpdate payload h
       = Returned tt (merged payload h)
     /\ AsyncParameterServerHandler._model (merged payload h)
        = AsyncParameterServerHandler._buffer (merged payload h)
     /\ forall (i : nat) (b x : R),
          AsyncParameterServerHandler._buffer h !! i = Some b ->
          payload !! i = Some x ->
          AsyncParameterServerHandler._buffer (merged payload h) !! i
          = Some (sadd (smul (ssub (sofZ 1) (AsyncParameterServerHandler.alpha h)) b)
                       (smul (AsyncParameterServerHandler.alpha h) x)))
  /\ (let o1 := AsyncParameterServerHandler.receive 1 ParameterUpdate
                  [qc 2 1; qc 4 1] async_two_params in
      let o2 := AsyncParameterServerHandler.receive 1 ParameterUpdate
                  [qc 2 1; qc 0 1] (state_of o1) in
      AsyncParameterServerHandler.alpha async_two_params = qc 1 2
      /\ has_returned o1 = true
      /\ AsyncParameterServerHandler._buffer (state_of o1) = [qc 1 1; qc 2 1]
      /\ AsyncParameterServerHandler._model (state_of o1) = [qc 1 1; qc 2 1]
      /\ has_returned o2 = true
      /\ AsyncParameterServerHandler._buffer (state_of o2) = [qc 3 2; qc 1 1]
      /\ AsyncParameterServerHandler._model (state_of o2) = [qc 3 2; qc 1 1]).
Proof.
  split.
  - intros R HS h sender payload Hlen. split; [|split].
    + by apply async_receive_update.
    + reflexivity.
    + intros i b x. apply merged_lookup.
  - repeat split; try reflexivity;
      apply Qc_list_eq; vm_compute; reflexivity.
Qed.

(** The same two updates in floating-point arithmetic. *)
Example async_merge_float :
  let o1 := AsyncParameterServerHandler.receive 1 ParameterUpdate
              [2%float; 4%float] async_two_params_float in
  let o2 := AsyncParameterServerHandler.receive 1 ParameterUpdate
              [2%float; 0%float] (state_of o1) in
  AsyncParameterServerHandler.alpha async_two_params_float = 0.5%float
  /\ has_returned o1 = true
  /\ AsyncParameterServerHandler._buffer (state_of o1) = [1%float; 2%float]
  /\ AsyncParameterServerHandler._model (state_of o1) = [1%float; 2%float]
  /\ has_returned o2 = true
  /\ AsyncParameterServerHandler._buffer (state_of o2) = [1.5%float; 1%float]
  /\ AsyncParameterServerHandler._model (state_of o2) = [1.5%float; 1%float].
Proof. vm_compute. repeat split. Qed.

(** ** Exact arithmetic: the mean does not depend on the order *)

Lemma zip_with_Qcplus_comm (a b : list Qc) :
  zip_with Qcplus a b = zip_with Qcplus b a.
Proof.
  revert b. induction a as [|x a IH]; intros [|y b]; simpl; try done.
  rewrite IH. f_equal. ring.
Qed.

Lemma zip_with_Qcplus_swap (t a b : list Qc) :
  zip_with Qcplus (zip_with Qcplus t a) b = zip_with Qcplus (zip_with Qcplus t b) a.
Proof.
  revert a b. induction t as [|x t IH]; intros [|y a] [|z b]; simpl; try done.
  rewrite IH. f_equal. ring.
Qed.

Lemma foldl_Qcplus_perm (ts ts' : list (list Qc)) :
  Permutation ts ts' ->
  forall t, foldl (zip_with Qcplus) t ts = foldl (zip_with Qcplus) t ts'.
Proof.
  induction 1 as [|x l l' Hp IH|x y l|l l' l'' Hp1 IH1 Hp2 IH2]; intros t; simpl.
  - reflexivity.
  - apply IH.
  - by rewrite zip_with_Qcplus_swap.
  - by rewrite IH1.
Qed.

Lemma sum_dim0_perm (rows rows' : list (list Qc)) :
  Permutation rows rows' -> Torch.sum_dim0 rows = Torch.sum_dim0 rows'.
Proof.
  intros Hp. destruct rows' as [|t' ts'].
  - apply Permutation_sym, Permutation_nil in Hp. by subst.
  - destruct (Permutation_vs_cons_inv Hp) as (l1 & l2 & ->).
    destruct l1 as [|t l1]; simpl in *.
    + apply Permutation_cons_inv in Hp. by apply foldl_Qcplus_perm.
    + assert (Hp' : Permutation (t :: l1 ++ l2) ts').
      { apply (Permutation_cons_inv (a := t')).
        etrans; [|exact Hp]. rewrite (Permutation_middle (t :: l1) l2 t'). done. }
      rewrite (foldl_Qcplus_perm (l1 ++ t' :: l2) (t' :: l1 ++ l2))
        by (symmetry; apply Permutation_middle).
      rewrite <- (foldl_Qcplus_perm _ _ Hp'). simpl.
      by rewrite zip_with_Qcplus_comm.
Qed.

Lemma mean_dim0_perm (rows rows' : list (list Qc)) :
  Permutation rows rows' -> Torch.mean_dim0 rows = Torch.mean_dim0 rows'.
Proof.
  intros Hp. unfold Torch.mean_dim0.
  rewrite (sum_dim0_perm _ _ Hp). apply map_ext. intros x.
  f_equal. f_equal. f_equal. exact (Permutation_length Hp).
Qed.

(** With exact arithmetic and every client taking part, the buffer after
    the round is the mean of the contributions in the order in which they
    arrived, which is their mean in any order. *)
Theorem sync_full_round_mean_exact (h : SyncParameterServerHandler.t Qc)
    (ms : list (Message Qc)) :
  round_start h ->
  SyncParameterServerHandler.round_num h = SyncParameterServerHandler.client_num h ->
  0 < SyncParameterServerHandler.round_num h ->
  Forall (client_update (SyncParameterServerHandler.client_num h)) ms ->
  NoDup (map msg_sender ms) ->
  Z.of_nat (length ms) = SyncParameterServerHandler.round_num h ->
  Forall (fun m => length (msg_payload m)
                   = length (SyncParameterServerHandler._buffer h)) ms ->
  serve SyncParameterServerHandler.receive ms h
  = Returned tt (completed (Torch.mean_dim0 (map msg_payload ms)) h).
Proof.
  intros Hstart Hfull Hq Hall Hnd Hlen Hdim.
  destruct (sync_full_round_mean h ms Hstart Hfull Hq Hall Hnd Hlen Hdim)
    as (ranked & Hp & _ & ->).
  f_equal. f_equal. apply mean_dim0_perm. symmetry. by apply Permutation_map.
Qed.

(** ** The theorems at concrete federations *)

(** One client of two per round: the first contribution reaches the
    quorum of 1 and [receive] raises; the buffer stays [0, 0]. *)
Lemma sync_partial_quorum_raises_witness :
  SyncParameterServerHandler.round_num one_of_two = 1
  /\ exists h',
       serve SyncParameterServerHandler.receive
         [update_from 1 [qc 1 1; qc 2 1]] one_of_two = Raised TypeError h'
       /\ SyncParameterServerHandler._buffer h'
          = SyncParameterServerHandler._buffer one_of_two
       /\ SyncParameterServerHandler._model h'
          = SyncParameterServerHandler._model one_of_two.
Proof.
  split; [reflexivity|].
  apply (sync_partial_quorum_raises one_of_two [update_from 1 [qc 1 1; qc 2 1]]).
  - split; reflexivity.
  - vm_compute. split; reflexivity.
  - repeat constructor; vm_compute; discriminate.
  - apply NoDup_singleton.
  - reflexivity.
Defined.

Lemma sync_partial_quorum_no_reset_witness :
  exists h',
    serve SyncParameterServerHandler.receive
      [update_from 2 [qc 1 1; qc 2 1]] one_of_two = Raised TypeError h'
    /\ SyncParameterServerHandler.update_flag h'
       = SyncParameterServerHandler.update_flag one_of_two
    /\ SyncParameterServerHandler.buffer_cnt h'
       = SyncParameterServerHandler.round_num one_of_two
    /\ SyncParameterServerHandler.client_buffer_cache h'
       <> SyncParameterServerHandler.empty_cache
            (SyncParameterServerHandler.client_num one_of_two).
Proof.
  apply (sync_partial_quorum_no_reset one_of_two [update_from 2 [qc 1 1; qc 2 1]]).
  - split; reflexivity.
  - vm_compute. split; reflexivity.
  - repeat constructor; vm_compute; discriminate.
  - apply NoDup_singleton.
  - reflexivity.
Defined.

Lemma sync_duplicate_update_dropped_witness :
  let h1 := accepted 0 [qc 1 1; qc 2 1] two_clients in
  (cache_slot two_clients 1 = Some None
   /\ exists h1',
        SyncParameterServerHandler.receive 1 ParameterUpdate [qc 1 1; qc 2 1] two_clients
          = Returned tt h1'
        /\ SyncParameterServerHandler.buffer_cnt h1'
           = SyncParameterServerHandler.buffer_cnt two_clients + 1
        /\ cache_slot h1' 1 = Some (Some [qc 1 1; qc 2 1])
        /\ SyncParameterServerHandler.receive 1 ParameterUpdate [qc 5 1; qc 6 1] h1'
           = Returned tt h1')
  /\ (cache_slot h1 1 = Some (Some [qc 1 1; qc 2 1])
      /\ SyncParameterServerHandler.receive 1 ParameterUpdate [qc 5 1; qc 6 1] h1
         = Returned tt h1).
Proof.
  intros h1. split; (split; [reflexivity|]).
  - apply (proj2 (sync_duplicate_update_dropped two_clients 1
                    [qc 1 1; qc 2 1] [qc 5 1; qc 6 1])).
    + reflexivity.
    + vm_compute. discriminate.
  - apply (proj1 (sync_duplicate_update_dropped h1 1
                    [qc 1 1; qc 2 1] [qc 5 1; qc 6 1]) [qc 1 1; qc 2 1]).
    reflexivity.
Defined.

Lemma sync_receive_other_kind_fatal_witness :
  Exit <> ParameterUpdate
  /\ SyncParameterServerHandler.receive 1 Exit [qc 1 1; qc 2 1] two_clients
     = Raised Exception_Undefined_message_type two_clients.
Proof.
  split; [discriminate|].
  apply (sync_receive_other_kind_fatal two_clients 1 Exit [qc 1 1; qc 2 1]).
  discriminate.
Defined.

Lemma sync_server_rank_fills_last_slot_witness :
  cache_sized two_clients
  /\ 1 <= SyncParameterServerHandler.client_num two_clients
  /\ SyncParameterServerHandler.receive 0 ParameterUpdate [qc 1 1; qc 2 1] two_clients
     = SyncParameterServerHandler.receive 2 ParameterUpdate [qc 1 1; qc 2 1] two_clients
  /\ exists h1,
       SyncParameterServerHandler.receive 0 ParameterUpdate [qc 1 1; qc 2 1]
         two_clients
       = Returned tt h1
       /\ SyncParameterServerHandler.client_buffer_cache h1 !! 1%nat
          = Some (Some [qc 1 1; qc 2 1])
       /\ SyncParameterServerHandler.client_buffer_cache h1 !! 0%nat = Some None
       /\ SyncParameterServerHandler.buffer_cnt h1 = 1.
Proof.
  assert (Hsz : cache_sized two_clients) by reflexivity.
  assert (Hn : 1 <= SyncParameterServerHandler.client_num two_clients)
    by (vm_compute; discriminate).
  destruct (sync_server_rank_fills_last_slot two_clients [qc 1 1; qc 2 1] Hsz Hn)
    as (_ & Hsame & _ & _ & Hlast).
  split; [exact Hsz|]. split; [exact Hn|]. split; [exact Hsame|].
  destruct (Hlast eq_refl) as (h1 & Hl & Ho & Hc & _ & _ & _ & _ & _ & Hr).
  exists h1. split; [exact Hr|]. split; [exact Hl|].
  split; [exact (Ho 0%nat ltac:(discriminate))|exact Hc].
Defined.

(** The server's rank at a quorum of one of two: the contribution is
    stored in the last slot and completes the quorum, and the
    aggregation over the cache, whose first slot is empty, raises
    [TypeError]. *)
Lemma sync_server_rank_counterexample :
  ~ (exists h',
       SyncParameterServerHandler.receive 0 ParameterUpdate [qc 1 1; qc 2 1]
         one_of_two
       = Returned tt h').
Proof. intros (h' & Hr). discriminate Hr. Qed.

Lemma sync_round_order_independent_witness :
  let a := update_from 1 [qc 1 1; qc 2 1] in
  let b := update_from 2 [qc 3 1; qc 4 1] in
  serve SyncParameterServerHandler.receive [a; b] two_clients
  = serve SyncParameterServerHandler.receive [b; a] two_clients.
Proof.
  intros a b.
  apply (sync_round_order_independent two_clients [a; b] [b; a]).
  - split; reflexivity.
  - repeat constructor; vm_compute; discriminate.
  - apply list.NoDup_cons. split; [|apply NoDup_singleton].
    intros Hin. apply list_elem_of_In in Hin. destruct Hin as [Hd|[]]. discriminate.
  - vm_compute. discriminate.
  - apply perm_swap.
Defined.

Lemma async_parameter_update_merges_witness :
  length [qc 2 1; qc 4 1]
    = length (AsyncParameterServerHandler._buffer async_two_params)
  /\ AsyncParameterServerHandler.receive 7 ParameterUpdate [qc 2 1; qc 4 1]
       async_two_params
     = Returned tt (merged [qc 2 1; qc 4 1] async_two_params).
Proof.
  split; [reflexivity|].
  apply (proj1 async_parameter_update_merges Qc Qc_Scalar async_two_params 7
           [qc 2 1; qc 4 1]).
  reflexivity.
Defined.

Lemma unexpected_kind_sync_raises_async_ignores_witness :
  SyncParameterServerHandler.receive 1 (OtherCode 4) [qc 1 1; qc 2 1] two_clients
    = Raised Exception_Undefined_message_type two_clients
  /\ AsyncParameterServerHandler.receive 1 (OtherCode 4) [qc 1 1; qc 2 1]
       async_two_params
     = Returned tt async_two_params.
Proof.
  destruct (unexpected_kind_sync_raises_async_ignores (R:=Qc) 1 (OtherCode 4)
              [qc 1 1; qc 2 1]) as [Hs Ha].
  split.
  - apply Hs. discriminate.
  - apply Ha; discriminate.
Defined.

(** A kind outside the four at the async handler: [receive] does not
    fail. *)
Lemma unexpected_kind_async_counterexample :
  ~ (exists e h',
       AsyncParameterServerHandler.receive 1 (OtherCode 4) [qc 1 1; qc 2 1]
         async_two_params
       = Raised e h').
Proof. intros (e & h' & Hr). discriminate Hr. Qed.

Lemma client_turn_raises_not_implemented_witness :
  let c := ClientCommunicationTopology.mk [qc 0 1; qc 0 1] 1 3 [] [] in
  let frame := mkMessage Qc 0 ParameterUpdate [qc 1 1; qc 2 1] in
  msg_code frame <> Exit
  /\ ClientSyncTop.run (fun _ t => t) [frame; frame] c
     = Raised NotImplementedError
         (ClientCommunicationTopology.mk [qc 1 1; qc 2 1] 1 3 [2] []).
Proof.
  intros c frame. split; [discriminate|].
  apply (client_turn_raises_not_implemented (fun _ t => t) c frame [frame]).
  discriminate.
Defined.

(** * Further properties of the sync handler *)

(** ** What one call of [receive] can do *)

Section SyncSteps.
Context {R : Type} `{Scalar R}.
Implicit Types (h : SyncParameterServerHandler.t R) (payload : Tensor (R:=R))
  (cache : list (option (Tensor (R:=R)))).

Lemma assign_all_length (dst src buf : Tensor (R:=R)) :
  Torch.assign_all dst src = inr buf -> length buf = length dst.
Proof.
  unfold Torch.assign_all.
  destruct (length src =? length dst)%nat eqn:E.
  - intros [= <-]. by apply Nat.eqb_eq.
  - destruct src as [|x [|y src]]; try discriminate.
    intros [= <-]. apply length_replicate.
Qed.

Lemma aggregate_cases h :
  (exists e, SyncParameterServerHandler.aggregate h = Raised e h)
  \/ (exists buf,
        length buf = length (SyncParameterServerHandler._buffer h)
        /\ SyncParameterServerHandler.aggregate h = Returned tt (completed buf h)).
Proof.
  unfold SyncParameterServerHandler.aggregate.
  unfold lift. unfold bind, ret, raise, get, gets, modify.
  destruct (Torch.stack _) as [e|rows]; [left; by exists e|].
  cbv beta iota.
  match goal with
  | |- context [Torch.assign_all ?dst ?src] =>
      destruct (Torch.assign_all dst src) as [e|buf] eqn:E
  end; [left; by exists e|].
  right. exists buf. split; [by apply assign_all_length in E|reflexivity].
Qed.

(** The outcomes of a call of [receive]: the message is rejected or
    dropped and the handler is as before; or the contribution is stored
    and counted, and then, when the quorum is reached, the aggregation
    either fails and leaves the stored contribution behind or completes
    the round. *)
Lemma receive_cases h sender code payload :
  (exists e, SyncParameterServerHandler.receive sender code payload h = Raised e h)
  \/ SyncParameterServerHandler.receive sender code payload h = Returned tt h
  \/ exists n,
       SyncParameterServerHandler.client_buffer_cache h !! n = Some None
       /\ ((SyncParameterServerHandler.buffer_cnt h + 1
             <> SyncParameterServerHandler.round_num h
            /\ SyncParameterServerHandler.receive sender code payload h
               = Returned tt (accepted n payload h))
           \/ (SyncParameterServerHandler.buffer_cnt h + 1
                = SyncParameterServerHandler.round_num h
               /\ ((exists e,
                      SyncParameterServerHandler.receive sender code payload h
                      = Raised e (accepted n payload h))
                   \/ (exists buf,
                         length buf = length (SyncParameterServerHandler._buffer h)
                         /\ SyncParameterServerHandler.receive sender code payload h
                            = Returned tt (completed buf h))))).
Proof.
  destruct (MessageCode_eqb code ParameterUpdate) eqn:Ecode.
  2: { left. exists Exception_Undefined_message_type.
       unfold SyncParameterServerHandler.receive. by rewrite Ecode. }
  apply MessageCode_eqb_eq in Ecode as ->.
  destruct (cache_slot h sender) as [[t|]|] eqn:Eslot.
  - right. left. apply cache_slot_inv in Eslot as (n & Hi & Hn).
    by apply (receive_occupied h sender payload n t).
  - right. right. apply cache_slot_inv in Eslot as (n & Hi & Hn).
    exists n. split; [done|].
    rewrite (receive_empty h sender payload n Hi Hn).
    destruct (Z.eqb_spec (SyncParameterServerHandler.buffer_cnt h + 1)
                (SyncParameterServerHandler.round_num h)) as [E|E].
    + right. split; [done|].
      destruct (aggregate_cases (accepted n payload h)) as [[e He]|(buf & Hl & Hb)].
      * left. by exists e.
      * right. exists buf. split; [done|]. by rewrite Hb.
    + left. by split.
  - left. exists IndexError. unfold cache_slot in Eslot.
    unfold SyncParameterServerHandler.receive, getitem. simpl.
    unfold bind, ret, raise, get, gets, modify, lift.
    destruct (py_index _ _) as [n|]; [|done]. by rewrite Eslot.
Qed.

Lemma occupied_insert_empty cache (n : nat) payload :
  cache !! n = Some None ->
  occupied (<[n := Some payload]> cache) = S (occupied cache).
Proof.
  revert n. induction cache as [|o cache IH]; intros n Hn; [done|].
  destruct n as [|n]; simpl in *.
  - injection Hn as ->. reflexivity.
  - rewrite (IH n Hn). by destruct o.
Qed.

Lemma occupied_le_length cache : (occupied cache <= length cache)%nat.
Proof. induction cache as [|[t|] cache IH]; simpl; lia. Qed.

(** X1: a call of [receive] that raises leaves the global buffer, the
    model handle and [update_flag] as they were, whatever the message. *)
Theorem sync_receive_raise_keeps_model h sender code payload e h' :
  SyncParameterServerHandler.receive sender code payload h = Raised e h' ->
  SyncParameterServerHandler._buffer h' = SyncParameterServerHandler._buffer h
  /\ SyncParameterServerHandler._model h' = SyncParameterServerHandler._model h
  /\ SyncParameterServerHandler.update_flag h'
     = SyncParameterServerHandler.update_flag h.
Proof.
  intros Hr.
  destruct (receive_cases h sender code payload)
    as [[e0 He]|[Hd|(n & _ & [[_ Ha]|[_ [[e0 He]|(buf & _ & Hb)]]])]];
    rewrite Hr in *; try discriminate.
  - by injection He as _ ->.
  - by injection He as _ ->.
Qed.

(** X2: once [buffer_cnt] has reached [round_num] no call of [receive]
    completes a round any more: the buffer, the model and [update_flag]
    stay as they are, and [buffer_cnt] stays at or above [round_num].
    This is the state of a handler whose quorum is 0, and of one whose
    aggregation has failed. *)
Theorem sync_quorum_passed_freezes h sender code payload :
  SyncParameterServerHandler.round_num h <= SyncParameterServerHandler.buffer_cnt h ->
  let h' := state_of (SyncParameterServerHandler.receive sender code payload h) in
  SyncParameterServerHandler._buffer h' = SyncParameterServerHandler._buffer h
  /\ SyncParameterServerHandler._model h' = SyncParameterServerHandler._model h
  /\ SyncParameterServerHandler.update_flag h'
     = SyncParameterServerHandler.update_flag h
  /\ SyncParameterServerHandler.round_num h'
     <= SyncParameterServerHandler.buffer_cnt h'.
Proof.
  intros Hq h'. subst h'.
  destruct (receive_cases h sender code payload)
    as [[e0 He]|[Hd|(n & _ & [[_ Ha]|[Hc _]])]].
  - by rewrite He.
  - by rewrite Hd.
  - rewrite Ha. simpl. repeat split. lia.
  - lia.
Qed.

Lemma receive_invariants h sender code payload :
  let h' := state_of (SyncParameterServerHandler.receive sender code payload h) in
  SyncParameterServerHandler.client_num h' = SyncParameterServerHandler.client_num h
  /\ SyncParameterServerHandler.round_num h' = SyncParameterServerHandler.round_num h
  /\ length (SyncParameterServerHandler._buffer h')
     = length (SyncParameterServerHandler._buffer h)
  /\ (cache_sized h -> cache_sized h')
  /\ (SyncParameterServerHandler.buffer_cnt h
      = Z.of_nat (occupied (SyncParameterServerHandler.client_buffer_cache h)) ->
      SyncParameterServerHandler.buffer_cnt h'
      = Z.of_nat (occupied (SyncParameterServerHandler.client_buffer_cache h')))
  /\ (SyncParameterServerHandler._model h = SyncParameterServerHandler._buffer h ->
      SyncParameterServerHandler._model h' = SyncParameterServerHandler._buffer h').
Proof.
  intros h'. subst h'.
  assert (Hacc : forall n,
            SyncParameterServerHandler.client_buffer_cache h !! n = Some None ->
            (cache_sized h -> cache_sized (accepted n payload h))
            /\ (SyncParameterServerHandler.buffer_cnt h
                = Z.of_nat (occupied (SyncParameterServerHandler.client_buffer_cache h)) ->
                SyncParameterServerHandler.buffer_cnt (accepted n payload h)
                = Z.of_nat (occupied (SyncParameterServerHandler.client_buffer_cache
                                        (accepted n payload h))))).
  { intros n Hn. split.
    - unfold cache_sized. simpl. by rewrite length_insert.
    - simpl. intros ->. rewrite (occupied_insert_empty _ n payload Hn). lia. }
  destruct (receive_cases h sender code payload)
    as [[e0 He]|[Hd|(n & Hn & [[_ Ha]|[_ [[e0 He]|(buf & Hl & Hb)]]])]].
  - rewrite He. simpl. by repeat split.
  - rewrite Hd. simpl. by repeat split.
  - rewrite Ha. destruct (Hacc n Hn) as [H1 H2]. simpl state_of.
    by repeat split.
  - rewrite He. destruct (Hacc n Hn) as [H1 H2]. simpl state_of.
    by repeat split.
  - rewrite Hb. simpl state_of. repeat split; try done.
    + intros _. unfold cache_sized, SyncParameterServerHandler.empty_cache. simpl.
      apply length_replicate.
    + intros _. simpl. by rewrite occupied_empty_cache.
Qed.

Lemma reachable_invariants (h0 h : SyncParameterServerHandler.t R) :
  sync_reachable h0 h ->
  SyncParameterServerHandler.client_num h = SyncParameterServerHandler.client_num h0
  /\ SyncParameterServerHandler.round_num h = SyncParameterServerHandler.round_num h0
  /\ length (SyncParameterServerHandler._buffer h)
     = length (SyncParameterServerHandler._buffer h0)
  /\ (cache_sized h0 -> cache_sized h)
  /\ (SyncParameterServerHandler.buffer_cnt h0
      = Z.of_nat (occupied (SyncParameterServerHandler.client_buffer_cache h0)) ->
      SyncParameterServerHandler.buffer_cnt h
      = Z.of_nat (occupied (SyncParameterServerHandler.client_buffer_cache h)))
  /\ (SyncParameterServerHandler._model h0 = SyncParameterServerHandler._buffer h0 ->
      SyncParameterServerHandler._model h = SyncParameterServerHandler._buffer h).
Proof.
  induction 1 as [|h sender code payload _ IH|h _ IH].
  - by repeat split.
  - destruct IH as (I1 & I2 & I3 & I4 & I5 & I6).
    destruct (receive_invariants h sender code payload) as (J1 & J2 & J3 & J4 & J5 & J6).
    repeat split; try congruence; auto.
  - destruct IH as (I1 & I2 & I3 & I4 & I5 & I6). simpl. by repeat split.
Qed.

(** X3: whatever calls of [receive] and [start_round] a handler has been
    through since it was constructed, and however they ended, the number
    of clients and the quorum are those of the construction, the quorum
    being the truncation of the rounded float product of the ratio and
    the number of clients, the cache has one slot per client, and the
    global buffer has the length of the model's parameter vector. *)
Theorem sync_reachable_shape (model : Tensor (R:=R)) n cuda ratio h0 h :
  SyncParameterServerHandler.__init__ model n cuda ratio = inr h0 ->
  sync_reachable h0 h ->
  SyncParameterServerHandler.client_num h = n
  /\ (exists product,
        py_float_mul_int ratio n = inr product
        /\ py_int product = inr (SyncParameterServerHandler.round_num h))
  /\ length (SyncParameterServerHandler.client_buffer_cache h) = Z.to_nat n
  /\ length (SyncParameterServerHandler._buffer h) = length model.
Proof.
  intros Hi Hr. apply reachable_invariants in Hr as (I1 & I2 & I3 & I4 & _).
  specialize (I4 (init_cache_sized _ _ _ _ _ Hi)).
  apply init_inv in Hi as (product & Hp & Hk & Hh).
  assert (Hn : SyncParameterServerHandler.client_num h0 = n) by (by rewrite Hh).
  assert (Hb : SyncParameterServerHandler._buffer h0 = model) by (by rewrite Hh).
  split; [congruence|]. split; [exists product; split; [exact Hp|congruence]|].
  split; [|congruence].
  unfold cache_sized in I4. rewrite I4. congruence.
Qed.

(** X4: in every handler reached from a constructed one [buffer_cnt] is
    the number of occupied cache slots, so it lies between 0 and the
    number of clients. *)
Theorem sync_reachable_count (model : Tensor (R:=R)) n cuda ratio h0 h :
  SyncParameterServerHandler.__init__ model n cuda ratio = inr h0 ->
  sync_reachable h0 h ->
  SyncParameterServerHandler.buffer_cnt h
  = Z.of_nat (occupied (SyncParameterServerHandler.client_buffer_cache h))
  /\ 0 <= SyncParameterServerHandler.buffer_cnt h <= Z.max 0 n.
Proof.
  intros Hi Hr. apply reachable_invariants in Hr as (I1 & _ & _ & I4 & I5 & _).
  specialize (I4 (init_cache_sized _ _ _ _ _ Hi)).
  apply init_inv in Hi as (_ & _ & _ & Hh).
  assert (Hn : SyncParameterServerHandler.client_num h0 = n) by (by rewrite Hh).
  assert (Hc : SyncParameterServerHandler.buffer_cnt h
               = Z.of_nat (occupied (SyncParameterServerHandler.client_buffer_cache h))).
  { apply I5. rewrite Hh. simpl. by rewrite occupied_empty_cache. }
  split; [exact Hc|].
  pose proof (occupied_le_length (SyncParameterServerHandler.client_buffer_cache h)).
  unfold cache_sized in I4. lia.
Qed.

(** X5: in every handler reached from a constructed one the model handle
    holds the global buffer: the two are written together or not at all. *)
Theorem sync_reachable_model_is_buffer (model : Tensor (R:=R)) n cuda ratio h0 h :
  SyncParameterServerHandler.__init__ model n cuda ratio = inr h0 ->
  sync_reachable h0 h ->
  SyncParameterServerHandler._model h = SyncParameterServerHandler._buffer h.
Proof.
  intros Hi Hr. apply reachable_invariants in Hr as (_ & _ & _ & _ & _ & I6).
  apply I6. apply init_inv in Hi as (_ & _ & _ & Hh). by rewrite Hh.
Qed.

Lemma py_index_outside len i :
  i < - Z.of_nat len \/ Z.of_nat len <= i -> py_index len i = None.
Proof.
  intros Hi. unfold py_index.
  destruct (Z.leb_spec 0 i), (Z.ltb_spec i (Z.of_nat len)),
    (Z.leb_spec (- Z.of_nat len) i), (Z.ltb_spec i 0); simpl; try done; lia.
Qed.

Lemma py_index_wraps len i :
  - Z.of_nat len <= i < 0 -> py_index len i = py_index len (i + Z.of_nat len).
Proof.
  intros Hi. unfold py_index.
  destruct (Z.leb_spec 0 i), (Z.ltb_spec i (Z.of_nat len)),
    (Z.leb_spec (- Z.of_nat len) i), (Z.ltb_spec i 0),
    (Z.leb_spec 0 (i + Z.of_nat len)),
    (Z.ltb_spec (i + Z.of_nat len) (Z.of_nat len)); simpl; try lia.
  f_equal. lia.
Qed.

(** X6: a [ParameterUpdate] of a rank above the number of clients, or at
    or below its negation, raises [IndexError] and leaves the handler as
    it was. *)
Theorem sync_rank_out_of_range h sender payload :
  cache_sized h ->
  0 <= SyncParameterServerHandler.client_num h ->
  SyncParameterServerHandler.client_num h < sender
  \/ sender <= - SyncParameterServerHandler.client_num h ->
  SyncParameterServerHandler.receive sender ParameterUpdate payload h
  = Raised IndexError h.
Proof.
  intros Hsz Hn Hs. apply receive_out_of_range.
  unfold cache_sized in Hsz. apply py_index_outside. rewrite Hsz. lia.
Qed.

(** X7: a [ParameterUpdate] of a rank [s] with [- client_num < s <= 0] is
    handled as one of the client rank [s + client_num]: negative indices
    count from the end of the cache. *)
Theorem sync_nonpositive_rank_wraps h sender payload :
  cache_sized h ->
  - SyncParameterServerHandler.client_num h < sender <= 0 ->
  SyncParameterServerHandler.receive sender ParameterUpdate payload h
  = SyncParameterServerHandler.receive
      (sender + SyncParameterServerHandler.client_num h) ParameterUpdate payload h.
Proof.
  intros Hsz Hs. unfold cache_sized in Hsz.
  assert (Hi : py_index (length (SyncParameterServerHandler.client_buffer_cache h))
                 (sender - 1)
               = py_index (length (SyncParameterServerHandler.client_buffer_cache h))
                   (sender + SyncParameterServerHandler.client_num h - 1)).
  { rewrite py_index_wraps by (rewrite Hsz; lia). f_equal. rewrite Hsz. lia. }
  destruct (py_index (length (SyncParameterServerHandler.client_buffer_cache h))
              (sender - 1)) as [n|] eqn:En.
  - symmetry in Hi.
    destruct (SyncParameterServerHandler.client_buffer_cache h !! n)
      as [[t|]|] eqn:El.
    + rewrite (receive_occupied h sender payload n t En El).
      by rewrite (receive_occupied h _ payload n t Hi El).
    + rewrite (receive_empty h sender payload n En El).
      by rewrite (receive_empty h _ payload n Hi El).
    + apply py_index_lt in En. apply lookup_ge_None in El. lia.
  - symmetry in Hi. rewrite (receive_out_of_range h sender payload En).
    by rewrite (receive_out_of_range h _ payload Hi).
Qed.
End SyncSteps.

(** ** Rounds in which every client takes part *)

Section SyncFullRounds.
Context {R : Type} `{Scalar R}.
Implicit Types (h : SyncParameterServerHandler.t R) (m : Message R)
  (ms : list (Message R)) (rows : list (Tensor (R:=R))).

(** The last of the contributions of all clients starts the aggregation
    on a cache that holds them by client rank. *)
Lemma serve_full_round h ms :
  round_start h ->
  SyncParameterServerHandler.round_num h = SyncParameterServerHandler.client_num h ->
  0 < SyncParameterServerHandler.round_num h ->
  Forall (client_update (SyncParameterServerHandler.client_num h)) ms ->
  NoDup (map msg_sender ms) ->
  Z.of_nat (length ms) = SyncParameterServerHandler.client_num h ->
  exists ranked,
    Permutation ms ranked
    /\ map msg_sender ranked = seqZ 1 (SyncParameterServerHandler.client_num h)
    /\ serve SyncParameterServerHandler.receive ms h
       = SyncParameterServerHandler.aggregate
           (SyncParameterServerHandler.set_client_buffer_cache
              (map Some (map msg_payload ranked))
              (SyncParameterServerHandler.set_buffer_cnt
                 (SyncParameterServerHandler.round_num h) h)).
Proof.
  intros Hstart Hfull Hq Hall Hnd Hlen.
  assert (Hperm : Permutation (seqZ 1 (SyncParameterServerHandler.client_num h))
                    (map msg_sender ms)).
  { symmetry. apply submseteq_length_Permutation.
    - apply NoDup_submseteq; [done|]. intros x Hx.
      apply list_elem_of_In, in_map_iff in Hx as (m & <- & Hm).
      rewrite list.Forall_forall in Hall.
      destruct (Hall m) as [_ Hr]; [by apply list_elem_of_In|].
      apply elem_of_seqZ. lia.
    - rewrite length_seqZ, length_map. lia. }
  apply Permutation_map_inv in Hperm as (ranked & Hranks & Hp).
  exists ranked. split; [done|]. split; [done|].
  assert (Hpos : Forall (fun m => 1 <= msg_sender m) ms).
  { eapply Forall_impl; [|exact Hall]. by intros m [_ [? _]]. }
  destruct (round_start_slots h ms Hstart Hall) as [Hin Hempty].
  destruct Hstart as [Hcache Hzero].
  assert (Hlen' : length ranked = length ms)
    by (symmetry; by apply Permutation_length).
  rewrite serve_round; try done; try lia.
  2: { intros ->. simpl in Hlen. lia. }
  rewrite (fill_perm _ _ Hp Hnd Hpos). f_equal. f_equal.
  rewrite Hcache. unfold SyncParameterServerHandler.empty_cache.
  replace (Z.to_nat (SyncParameterServerHandler.client_num h))
    with (length ranked) by lia.
  apply (fill_in_order ranked []). simpl. rewrite <- Hranks.
  f_equal. lia.
Qed.

Lemma length_mean_dim0 rows (n : nat) :
  rows <> [] -> Forall (fun u => length u = n) rows ->
  length (Torch.mean_dim0 rows) = n.
Proof.
  intros Hne Hall. destruct rows as [|t ts]; [done|].
  inversion Hall as [|? ? Ht Hts]. subst.
  unfold Torch.mean_dim0, Torch.sum_dim0. rewrite length_map.
  by apply length_sum_rows.
Qed.

Lemma stack_same_length rows (n : nat) :
  rows <> [] -> Forall (fun u => length u = n) rows ->
  Torch.stack (map Some rows) = inr rows.
Proof.
  intros Hne Hall. unfold Torch.stack. rewrite tensors_map_Some.
  destruct rows as [|t ts]; [done|].
  inversion Hall as [|? ? Ht Hts]. subst.
  replace (forallb (fun u => (length u =? length t)%nat) ts) with true; [done|].
  symmetry. apply forallb_forall. intros u Hu.
  rewrite list.Forall_forall in Hts. apply Nat.eqb_eq.
  apply Hts. by apply list_elem_of_In.
Qed.

Lemma stack_uneven rows (t u : Tensor (R:=R)) :
  In t rows -> In u rows -> length t <> length u ->
  Torch.stack (map Some rows) = inl RuntimeError.
Proof.
  intros Ht Hu Hne. unfold Torch.stack. rewrite tensors_map_Some.
  destruct rows as [|r rs]; [done|].
  destruct (forallb (fun v => (length v =? length r)%nat) rs) eqn:E; [|done].
  rewrite forallb_forall in E.
  assert (Hall : forall v, In v (r :: rs) -> length v = length r).
  { intros v [<-|Hv]; [done|]. apply Nat.eqb_eq. by apply E. }
  rewrite (Hall t Ht), (Hall u Hu) in Hne. done.
Qed.

(** The aggregation on a cache that is full of vectors. *)
Lemma aggregate_stacked h rows :
  SyncParameterServerHandler.client_buffer_cache h = map Some rows ->
  SyncParameterServerHandler.aggregate h
  = match Torch.stack (map Some rows) with
    | inl e => Raised e h
    | inr stacked =>
        match Torch.assign_all (SyncParameterServerHandler._buffer h)
                               (Torch.mean_dim0 stacked) with
        | inl e => Raised e h
        | inr buf => Returned tt (completed buf h)
        end
    end.
Proof.
  intros Hc. unfold SyncParameterServerHandler.aggregate.
  unfold lift. unfold bind, ret, raise, get, gets, modify.
  rewrite Hc. destruct (Torch.stack _) as [e|stacked]; [done|].
  cbv beta iota.
  match goal with
  | |- context [Torch.assign_all ?dst ?src] =>
      destruct (Torch.assign_all dst src) as [e|buf]
  end; reflexivity.
Qed.

(** X8: two rounds in a row, every client contributing to each, with no
    [start_round] in between: the buffer and the model end up as the
    mean of the second round's contributions alone, whatever the first
    round and the buffer before it held. *)
Theorem sync_two_full_rounds h ms1 ms2 :
  round_start h ->
  SyncParameterServerHandler.round_num h = SyncParameterServerHandler.client_num h ->
  0 < SyncParameterServerHandler.round_num h ->
  full_round h ms1 -> full_round h ms2 ->
  exists ranked,
    Permutation ms2 ranked
    /\ map msg_sender ranked = seqZ 1 (SyncParameterServerHandler.client_num h)
    /\ serve SyncParameterServerHandler.receive (ms1 ++ ms2) h
       = Returned tt (completed (Torch.mean_dim0 (map msg_payload ranked)) h).
Proof.
  intros Hstart Hfull Hq (Hall1 & Hnd1 & Hlen1 & Hdim1) (Hall2 & Hnd2 & Hlen2 & Hdim2).
  destruct (serve_full_round h ms1 Hstart Hfull Hq Hall1 Hnd1 Hlen1)
    as (r1 & Hp1 & Hr1 & Hs1).
  assert (Hrows1 : Forall (fun u => length u
                     = length (SyncParameterServerHandler._buffer h))
                     (map msg_payload r1)).
  { apply Forall_map. eapply Permutation_Forall; [exact Hp1|exact Hdim1]. }
  assert (Hne1 : map msg_payload r1 <> []).
  { apply Permutation_length in Hp1. destruct r1; [simpl in *; lia|done]. }
  rewrite (aggregate_full _ (map msg_payload r1)) in Hs1; [|done|done|done].
  set (h1 := completed (Torch.mean_dim0 (map msg_payload r1)) h) in *.
  assert (Hlenb : length (SyncParameterServerHandler._buffer h1)
                  = length (SyncParameterServerHandler._buffer h)).
  { simpl. by apply length_mean_dim0. }
  assert (Hstart1 : round_start h1) by (split; reflexivity).
  destruct (serve_full_round h1 ms2 Hstart1 Hfull Hq Hall2 Hnd2 Hlen2)
    as (r2 & Hp2 & Hr2 & Hs2).
  exists r2. split; [done|]. split; [done|].
  rewrite serve_app. unfold bind. rewrite Hs1. cbv beta iota.
  change (serve SyncParameterServerHandler.receive ms2 h1
          = Returned tt (completed (Torch.mean_dim0 (map msg_payload r2)) h)).
  rewrite Hs2.
  rewrite (aggregate_full _ (map msg_payload r2)).
  - reflexivity.
  - reflexivity.
  - apply Permutation_length in Hp2. destruct r2; [simpl in *; lia|done].
  - apply Forall_map. eapply Permutation_Forall; [exact Hp2|].
    eapply Forall_impl; [|exact Hdim2]. intros m Hm. simpl in Hm.
    rewrite Hm. symmetry. exact Hlenb.
Qed.

(** The constructor with the default ratio. *)
Lemma init_default (model : Tensor (R:=R)) n cuda :
  0 < n <= 2 ^ 53 ->
  SyncParameterServerHandler.__init__ model n cuda float_1_0
  = inr (SyncParameterServerHandler.mk model model cuda n float_1_0 n
           (SyncParameterServerHandler.empty_cache n) 0 false).
Proof.
  intros Hn. destruct (quorum_of_ratio_1_0 n Hn) as (product & Hp & Hq).
  unfold SyncParameterServerHandler.__init__. rewrite Hp, Hq. reflexivity.
Qed.

(** X9: the constructor with the default [select_ratio] of 1.0 returns
    a handler for [n] clients, [0 < n <= 2 ^ 53], the numbers of
    clients that the float product [1.0 * n] gives back.  Once every
    client has sent a vector as long as the model's parameter vector,
    [receive] has returned each time and the buffer and the model are
    the mean of the vectors, taken by rank. *)
Theorem sync_default_handler_round (model : Tensor (R:=R)) n cuda :
  0 < n <= 2 ^ 53 ->
  exists h0,
    SyncParameterServerHandler.__init__ model n cuda float_1_0 = inr h0
    /\ forall ms,
         full_round h0 ms ->
         exists ranked,
           Permutation ms ranked
           /\ map msg_sender ranked = seqZ 1 n
           /\ serve SyncParameterServerHandler.receive ms h0
              = Returned tt
                  (completed (Torch.mean_dim0 (map msg_payload ranked)) h0).
Proof.
  intros Hn. eexists. split; [by apply init_default|].
  intros ms (Hall & Hnd & Hlen & Hdim).
  set (h := SyncParameterServerHandler.mk _ _ _ _ _ _ _ _ _) in *.
  destruct (serve_full_round h ms) as (ranked & Hp & Hr & Hs); try done.
  { simpl. lia. }
  exists ranked. split; [done|]. split; [done|].
  rewrite Hs. rewrite (aggregate_full _ (map msg_payload ranked)).
  - reflexivity.
  - reflexivity.
  - apply Permutation_length in Hp. destruct ranked; [simpl in *; lia|done].
  - apply Forall_map. eapply Permutation_Forall; [exact Hp|exact Hdim].
Qed.

(** X10: a round of all clients whose vectors cannot be averaged into the
    buffer (two of them differ in length, or they share a length that
    is neither the buffer's nor 1) ends in [RuntimeError] on the last
    contribution: the buffer, the model and [update_flag] are as before
    and [buffer_cnt] is left at the quorum. *)
Theorem sync_full_round_wrong_length h ms :
  round_start h ->
  SyncParameterServerHandler.round_num h = SyncParameterServerHandler.client_num h ->
  0 < SyncParameterServerHandler.round_num h ->
  Forall (client_update (SyncParameterServerHandler.client_num h)) ms ->
  NoDup (map msg_sender ms) ->
  Z.of_nat (length ms) = SyncParameterServerHandler.client_num h ->
  (exists m1 m2, In m1 ms /\ In m2 ms
                 /\ length (msg_payload m1) <> length (msg_payload m2))
  \/ (exists len : nat,
        Forall (fun m => length (msg_payload m) = len) ms
        /\ len <> length (SyncParameterServerHandler._buffer h) /\ len <> 1%nat) ->
  exists h',
    serve SyncParameterServerHandler.receive ms h = Raised RuntimeError h'
    /\ SyncParameterServerHandler._buffer h' = SyncParameterServerHandler._buffer h
    /\ SyncParameterServerHandler._model h' = SyncParameterServerHandler._model h
    /\ SyncParameterServerHandler.update_flag h'
       = SyncParameterServerHandler.update_flag h
    /\ SyncParameterServerHandler.buffer_cnt h'
       = SyncParameterServerHandler.round_num h.
Proof.
  intros Hstart Hfull Hq Hall Hnd Hlen Hbad.
  destruct (serve_full_round h ms Hstart Hfull Hq Hall Hnd Hlen)
    as (ranked & Hp & Hr & Hs).
  exists (SyncParameterServerHandler.set_client_buffer_cache
            (map Some (map msg_payload ranked))
            (SyncParameterServerHandler.set_buffer_cnt
               (SyncParameterServerHandler.round_num h) h)).
  split; [|by repeat split].
  rewrite Hs. rewrite (aggregate_stacked _ (map msg_payload ranked)) by reflexivity.
  destruct Hbad as [(m1 & m2 & H1 & H2 & Hne)|(len & Hsame & Hb & H1)].
  - rewrite (stack_uneven _ (msg_payload m1) (msg_payload m2)); [reflexivity| | |done].
    + apply in_map. eapply Permutation_in; [exact Hp|exact H1].
    + apply in_map. eapply Permutation_in; [exact Hp|exact H2].
  - assert (Hrows : Forall (fun u => length u = len) (map msg_payload ranked)).
    { apply Forall_map. eapply Permutation_Forall; [exact Hp|exact Hsame]. }
    assert (Hne : map msg_payload ranked <> []).
    { apply Permutation_length in Hp. destruct ranked; [simpl in *; lia|done]. }
    rewrite (stack_same_length _ len Hne Hrows).
    pose proof (length_mean_dim0 _ len Hne Hrows) as Hm.
    simpl SyncParameterServerHandler._buffer.
    unfold Torch.assign_all.
    destruct (Nat.eqb_spec (length (Torch.mean_dim0 (map msg_payload ranked)))
                (length (SyncParameterServerHandler._buffer h))) as [E|E]; [lia|].
    destruct (Torch.mean_dim0 (map msg_payload ranked)) as [|x [|y l]];
      simpl in Hm; try reflexivity; lia.
Qed.

(** X11: the length of a contribution is not checked against the buffer.
    When every client sends a vector of one element the round completes
    and every element of the buffer, and of the model, becomes the mean
    of those elements. *)
Theorem sync_full_round_broadcast h ms :
  round_start h ->
  SyncParameterServerHandler.round_num h = SyncParameterServerHandler.client_num h ->
  0 < SyncParameterServerHandler.round_num h ->
  Forall (client_update (SyncParameterServerHandler.client_num h)) ms ->
  NoDup (map msg_sender ms) ->
  Z.of_nat (length ms) = SyncParameterServerHandler.client_num h ->
  Forall (fun m => length (msg_payload m) = 1%nat) ms ->
  exists ranked v,
    Permutation ms ranked
    /\ map msg_sender ranked = seqZ 1 (SyncParameterServerHandler.client_num h)
    /\ Torch.mean_dim0 (map msg_payload ranked) = [v]
    /\ serve SyncParameterServerHandler.receive ms h
       = Returned tt
           (completed (replicate (length (SyncParameterServerHandler._buffer h)) v) h).
Proof.
  intros Hstart Hfull Hq Hall Hnd Hlen Hone.
  destruct (serve_full_round h ms Hstart Hfull Hq Hall Hnd Hlen)
    as (ranked & Hp & Hr & Hs).
  assert (Hrows : Forall (fun u => length u = 1%nat) (map msg_payload ranked)).
  { apply Forall_map. eapply Permutation_Forall; [exact Hp|exact Hone]. }
  assert (Hne : map msg_payload ranked <> []).
  { apply Permutation_length in Hp. destruct ranked; [simpl in *; lia|done]. }
  pose proof (length_mean_dim0 _ 1%nat Hne Hrows) as Hm.
  destruct (Torch.mean_dim0 (map msg_payload ranked)) as [|v [|y l]] eqn:Emean;
    simpl in Hm; try lia.
  exists ranked, v. split; [done|]. split; [done|]. split; [done|].
  rewrite Hs. rewrite (aggregate_stacked _ (map msg_payload ranked)) by reflexivity.
  rewrite (stack_same_length _ 1%nat Hne Hrows). rewrite Emean.
  simpl SyncParameterServerHandler._buffer. unfold Torch.assign_all.
  destruct (Nat.eqb_spec (length [v])
              (length (SyncParameterServerHandler._buffer h))) as [E|E].
  - simpl in E. rewrite <- E. reflexivity.
  - reflexivity.
Qed.
End SyncFullRounds.

(** X12: with exact arithmetic, a round of all clients leaves the mean of
    the contributions in the order of their arrival in the buffer and
    in the model: the result does not depend on the ranks of the
    senders nor on the order of delivery. *)
Theorem sync_full_round_mean_arrival_order (h : SyncParameterServerHandler.t Qc)
    (ms : list (Message Qc)) :
  round_start h ->
  SyncParameterServerHandler.round_num h = SyncParameterServerHandler.client_num h ->
  0 < SyncParameterServerHandler.round_num h ->
  full_round h ms ->
  serve SyncParameterServerHandler.receive ms h
  = Returned tt (completed (Torch.mean_dim0 (map msg_payload ms)) h).
Proof.
  intros Hstart Hfull Hq (Hall & Hnd & Hlen & Hdim).
  destruct (serve_full_round h ms Hstart Hfull Hq Hall Hnd Hlen)
    as (ranked & Hp & _ & ->).
  rewrite (aggregate_full _ (map msg_payload ranked)).
  - f_equal. change (completed (Torch.mean_dim0 (map msg_payload ranked)) h
                     = completed (Torch.mean_dim0 (map msg_payload ms)) h).
    f_equal. apply mean_dim0_perm. symmetry. by apply Permutation_map.
  - reflexivity.
  - apply Permutation_length in Hp. destruct ranked; [simpl in *; lia|done].
  - apply Forall_map. eapply Permutation_Forall; [exact Hp|exact Hdim].
Qed.

(** ** Client selection *)

Section SelectClients.
Context {R : Type} `{Scalar R}.
Variable random_sample : list Z -> Z -> option (list Z).
Hypothesis random_sample_contract : sample_contract random_sample.

Lemma submseteq_NoDup_l (l k : list Z) : l ⊆+ k -> NoDup k -> NoDup l.
Proof.
  intros Hs Hk. apply submseteq_Permutation in Hs as (k' & Hk').
  rewrite Hk' in Hk. by apply list.NoDup_app in Hk as (? & _ & _).
Qed.

(** X13: [select_clients] fails exactly when the quorum is negative or
    above the number of clients; otherwise it returns as many ranks as
    the quorum, no rank twice, each a client rank between 1 and
    [client_num]. *)
Theorem select_clients_ranks (h : SyncParameterServerHandler.t R) :
  match SyncParameterServerHandler.select_clients random_sample h with
  | Some select =>
      0 <= SyncParameterServerHandler.round_num h
        <= Z.max 0 (SyncParameterServerHandler.client_num h)
      /\ Z.of_nat (length select) = SyncParameterServerHandler.round_num h
      /\ NoDup select
      /\ Forall (fun s => 1 <= s <= SyncParameterServerHandler.client_num h) select
  | None =>
      SyncParameterServerHandler.round_num h < 0
      \/ Z.max 0 (SyncParameterServerHandler.client_num h)
         < SyncParameterServerHandler.round_num h
  end.
Proof.
  unfold SyncParameterServerHandler.select_clients.
  pose proof (random_sample_contract
                (map (fun i : nat => Z.of_nat i + 1)
                     (seq 0 (Z.to_nat (SyncParameterServerHandler.client_num h))))
                (SyncParameterServerHandler.round_num h)) as Hc.
  change (map (fun i : nat => Z.of_nat i + 1)
              (seq 0 (Z.to_nat (SyncParameterServerHandler.client_num h))))
    with (seqZ 1 (SyncParameterServerHandler.client_num h)) in *.
  destruct (random_sample _ _) as [sel|].
  - destruct Hc as (Hk & Hl & Hsub). rewrite length_seqZ in Hk.
    assert (Hin : Forall (fun s => 1 <= s <= SyncParameterServerHandler.client_num h)
                    sel).
    { apply list.Forall_forall. intros s Hs.
      apply (elem_of_submseteq _ _ _ Hs) in Hsub. apply elem_of_seqZ in Hsub. lia. }
    split; [lia|split; [lia|split; [|done]]].
    eapply submseteq_NoDup_l; [exact Hsub|apply NoDup_seqZ].
  - rewrite length_seqZ in Hc. lia.
Qed.

End SelectClients.

(** * Further properties of the async handler *)

Section AsyncSteps.
Context {R : Type} `{Scalar R}.
Implicit Types (h : AsyncParameterServerHandler.t R) (payload : Tensor (R:=R)).

Lemma async_update_eq h model_list :
  AsyncParameterServerHandler.update model_list h
  = match model_list with
    | [] => Raised IndexError h
    | params :: _ =>
        match Torch.add
                (Torch.scale (ssub (sofZ 1) (AsyncParameterServerHandler.alpha h))
                             (AsyncParameterServerHandler._buffer h))
                (Torch.scale (AsyncParameterServerHandler.alpha h) params) with
        | inl e => Raised e h
        | inr merged_ =>
            match Torch.assign_all (AsyncParameterServerHandler._buffer h) merged_ with
            | inl e => Raised e h
            | inr buf =>
                Returned tt (AsyncParameterServerHandler.set__model buf
                               (AsyncParameterServerHandler.set__buffer buf h))
            end
        end
    end.
Proof.
  unfold AsyncParameterServerHandler.update.
  unfold lift. unfold bind, ret, raise, get, gets, modify.
  destruct model_list as [|params rest]; [reflexivity|].
  cbv beta iota.
  match goal with
  | |- context [Torch.add ?a ?b] => destruct (Torch.add a b) as [e|merged_]
  end; [reflexivity|].
  cbv beta iota.
  match goal with
  | |- context [Torch.assign_all ?dst ?src] =>
      destruct (Torch.assign_all dst src) as [e|buf]
  end; reflexivity.
Qed.

(** [update] either raises and leaves the handler as it was, or installs
    one vector, of the buffer's length, as buffer and as model. *)
Lemma async_update_cases h model_list :
  (exists e, AsyncParameterServerHandler.update model_list h = Raised e h)
  \/ (exists buf,
        length buf = length (AsyncParameterServerHandler._buffer h)
        /\ AsyncParameterServerHandler.update model_list h
           = Returned tt (AsyncParameterServerHandler.set__model buf
                            (AsyncParameterServerHandler.set__buffer buf h))).
Proof.
  unfold AsyncParameterServerHandler.update.
  unfold lift. unfold bind, ret, raise, get, gets, modify.
  destruct model_list as [|params rest]; [left; by exists IndexError|].
  cbv beta iota.
  match goal with
  | |- context [Torch.add ?a ?b] => destruct (Torch.add a b) as [e|merged_]
  end; [left; by exists e|].
  cbv beta iota.
  match goal with
  | |- context [Torch.assign_all ?dst ?src] =>
      destruct (Torch.assign_all dst src) as [e|buf] eqn:E
  end; [left; by exists e|].
  right. exists buf. split; [by apply assign_all_length in E|reflexivity].
Qed.

Lemma async_receive_cases h sender code payload :
  (exists e, AsyncParameterServerHandler.receive sender code payload h = Raised e h)
  \/ (code = ParameterUpdate
      /\ exists buf,
           length buf = length (AsyncParameterServerHandler._buffer h)
           /\ AsyncParameterServerHandler.receive sender code payload h
              = Returned tt (AsyncParameterServerHandler.set__model buf
                               (AsyncParameterServerHandler.set__buffer buf h)))
  \/ (code = ParameterRequest
      /\ AsyncParameterServerHandler.receive sender code payload h
         = Returned tt (AsyncParameterServerHandler.set_outbox
                          (AsyncParameterServerHandler.outbox h ++ [reply_to sender h]) h))
  \/ (code <> ParameterUpdate /\ code <> ParameterRequest
      /\ AsyncParameterServerHandler.receive sender code payload h = Returned tt h).
Proof.
  destruct code as [| | | |k].
  - destruct (async_update_cases h [payload]) as [He|(buf & Hl & Hb)].
    + by left.
    + right. left. split; [done|]. by exists buf.
  - right. right. left. by split.
  - left. by exists NotImplementedError.
  - right. right. right. by repeat split.
  - right. right. right. by repeat split.
Qed.

(** X15: a call of the async handler's [receive] that raises leaves the
    whole handler as it was: no message is merged in part. *)
Theorem async_receive_raise_unchanged h sender code payload e h' :
  AsyncParameterServerHandler.receive sender code payload h = Raised e h' ->
  h' = h.
Proof.
  intros Hr.
  destruct (async_receive_cases h sender code payload)
    as [[e0 He]|[(_ & buf & _ & Hb)|[(_ & Hq)|(_ & _ & Hn)]]];
    rewrite Hr in *; try discriminate.
  by injection He as _ ->.
Qed.

(** X16: no call of the async handler's [receive], whatever the message
    and however it ends, changes [alpha], [decay] or the length of the
    buffer; and a model that holds the buffer still holds it after. *)
Theorem async_receive_invariants h sender code payload :
  let h' := state_of (AsyncParameterServerHandler.receive sender code payload h) in
  AsyncParameterServerHandler.alpha h' = AsyncParameterServerHandler.alpha h
  /\ AsyncParameterServerHandler.decay h' = AsyncParameterServerHandler.decay h
  /\ length (AsyncParameterServerHandler._buffer h')
     = length (AsyncParameterServerHandler._buffer h)
  /\ (AsyncParameterServerHandler._model h = AsyncParameterServerHandler._buffer h ->
      AsyncParameterServerHandler._model h' = AsyncParameterServerHandler._buffer h').
Proof.
  intros h'. subst h'.
  destruct (async_receive_cases h sender code payload)
    as [[e0 He]|[(_ & buf & Hl & Hb)|[(_ & Hq)|(_ & _ & Hn)]]].
  - rewrite He. by repeat split.
  - rewrite Hb. by repeat split.
  - rewrite Hq. by repeat split.
  - rewrite Hn. by repeat split.
Qed.

(** X17: the async handler sends exactly when it is asked: a
    [ParameterRequest] is answered by one [ParameterUpdate] that carries
    the model to the requester and leaves buffer and model untouched; a
    message of any other kind sends nothing. *)
Theorem async_sends_on_request_only h sender code payload :
  let h' := state_of (AsyncParameterServerHandler.receive sender code payload h) in
  (code = ParameterRequest ->
     AsyncParameterServerHandler.outbox h'
       = AsyncParameterServerHandler.outbox h ++ [reply_to sender h]
     /\ AsyncParameterServerHandler._buffer h' = AsyncParameterServerHandler._buffer h
     /\ AsyncParameterServerHandler._model h' = AsyncParameterServerHandler._model h)
  /\ (code <> ParameterRequest ->
        AsyncParameterServerHandler.outbox h' = AsyncParameterServerHandler.outbox h).
Proof.
  intros h'. subst h'.
  destruct (async_receive_cases h sender code payload)
    as [[e0 He]|[(Hc & buf & Hl & Hb)|[(Hc & Hq)|(Hc1 & Hc2 & Hn)]]].
  - rewrite He. simpl. split; [|done].
    intros ->. discriminate He.
  - rewrite Hb. subst code. by split.
  - rewrite Hq. subst code. by split.
  - rewrite Hn. by split.
Qed.

(** X18: [decay] plays no part: the handler with another [decay] does to
    every message what it does with this one, and ends in the same
    state but for [decay]. *)
Theorem async_decay_inert h sender code payload (d : R) :
  has_returned (AsyncParameterServerHandler.receive sender code payload (set_decay d h))
  = has_returned (AsyncParameterServerHandler.receive sender code payload h)
  /\ state_of (AsyncParameterServerHandler.receive sender code payload (set_decay d h))
     = set_decay d
         (state_of (AsyncParameterServerHandler.receive sender code payload h)).
Proof.
  destruct code as [| | | |k]; try (by split).
  change (AsyncParameterServerHandler.receive sender ParameterUpdate payload
            (set_decay d h))
    with (AsyncParameterServerHandler.update [payload] (set_decay d h)).
  change (AsyncParameterServerHandler.receive sender ParameterUpdate payload h)
    with (AsyncParameterServerHandler.update [payload] h).
  rewrite !async_update_eq.
  change (AsyncParameterServerHandler.alpha (set_decay d h))
    with (AsyncParameterServerHandler.alpha h).
  change (AsyncParameterServerHandler._buffer (set_decay d h))
    with (AsyncParameterServerHandler._buffer h).
  destruct (Torch.add _ _) as [e|merged_]; [by split|].
  destruct (Torch.assign_all _ _) as [e|buf]; by split.
Qed.

(** X19: a [ParameterUpdate] whose vector has neither the length of the
    buffer nor one element raises [RuntimeError] and leaves the async
    handler as it was. *)
Theorem async_update_wrong_length h sender payload :
  length payload <> length (AsyncParameterServerHandler._buffer h) ->
  length payload <> 1%nat ->
  AsyncParameterServerHandler.receive sender ParameterUpdate payload h
  = Raised RuntimeError h.
Proof.
  intros Hb H1.
  change (AsyncParameterServerHandler.receive sender ParameterUpdate payload h)
    with (AsyncParameterServerHandler.update [payload] h).
  rewrite async_update_eq.
  unfold Torch.add, Torch.assign_all, Torch.scale. rewrite !length_map.
  destruct (Nat.eqb_spec (length (AsyncParameterServerHandler._buffer h))
              (length payload)) as [E|E]; [lia|].
  destruct (AsyncParameterServerHandler._buffer h) as [|b [|b' buf]] eqn:Ebuf;
    destruct payload as [|x [|x' payload]]; simpl in *; try lia; reflexivity.
Qed.

(** X20: a [ParameterUpdate] of one element is merged into every element
    of the buffer: the length of the payload is not checked against the
    buffer. *)
Theorem async_update_one_element h sender (x : R) :
  let merged_buffer :=
    map (fun b => sadd (smul (ssub (sofZ 1) (AsyncParameterServerHandler.alpha h)) b)
                       (smul (AsyncParameterServerHandler.alpha h) x))
        (AsyncParameterServerHandler._buffer h) in
  AsyncParameterServerHandler.receive sender ParameterUpdate [x] h
  = Returned tt (AsyncParameterServerHandler.set__model merged_buffer
                   (AsyncParameterServerHandler.set__buffer merged_buffer h)).
Proof.
  intros merged_buffer. subst merged_buffer.
  change (AsyncParameterServerHandler.receive sender ParameterUpdate [x] h)
    with (AsyncParameterServerHandler.update [[x]] h).
  rewrite async_update_eq.
  unfold Torch.add, Torch.assign_all, Torch.scale.
  destruct (AsyncParameterServerHandler._buffer h) as [|b [|b' buf]] eqn:Ebuf;
    simpl; try reflexivity.
  rewrite !length_map, Nat.eqb_refl. rewrite map_map. reflexivity.
Qed.
End AsyncSteps.

(** ** Repeated updates in exact arithmetic *)

Lemma zip_with_merge_step (a c : Qc) (k : nat) (buffer payload : list Qc) :
  zip_with (fun b x => x + c ^ k * (b - x))%Qc
           (zip_with (fun b x => (1 - a) * b + a * x)%Qc buffer payload) payload
  = zip_with (fun b x => x + c ^ k * (((1 - a) * b + a * x) - x))%Qc buffer payload.
Proof.
  revert payload. induction buffer as [|b buffer IH]; intros [|x payload];
    simpl; try done.
  by rewrite IH.
Qed.

Lemma zip_with_Qc_ext (f g : Qc -> Qc -> Qc) (l k : list Qc) :
  (forall b x, f b x = g b x) -> zip_with f l k = zip_with g l k.
Proof.
  intros Hfg. revert k. induction l as [|b l IH]; intros [|x k]; simpl; try done.
  by rewrite IH, Hfg.
Qed.

Lemma zip_with_keep (l k : list Qc) :
  length k = length l -> zip_with (fun b x => x + 1 * (b - x))%Qc l k = l.
Proof.
  revert k. induction l as [|b l IH]; intros [|x k] Hl; simpl in *; try done.
  rewrite IH by lia. f_equal. ring.
Qed.

(** X21: with exact arithmetic, after [k] updates with one vector [p] of
    the buffer's length the buffer is [p + (1 - alpha)^k * (b - p)],
    element by element, where [b] is the buffer before: every update
    moves the buffer towards the payload by the factor [1 - alpha]. *)
Theorem async_repeated_update_exact (k : nat) :
  forall (h : AsyncParameterServerHandler.t Qc) (sender : Z) (payload : list Qc),
  length payload = length (AsyncParameterServerHandler._buffer h) ->
  let o := serve AsyncParameterServerHandler.receive
             (replicate k (mkMessage Qc sender ParameterUpdate payload)) h in
  has_returned o = true
  /\ AsyncParameterServerHandler._buffer (state_of o)
     = zip_with (fun b x => x + (1 - AsyncParameterServerHandler.alpha h) ^ k * (b - x))%Qc
                (AsyncParameterServerHandler._buffer h) payload.
Proof.
  induction k as [|k IH]; intros h sender payload Hlen o; subst o.
  - simpl. split; [done|]. symmetry. by apply zip_with_keep.
  - assert (Hstep : serve AsyncParameterServerHandler.receive
                      (replicate (S k) (mkMessage Qc sender ParameterUpdate payload)) h
                    = serve AsyncParameterServerHandler.receive
                        (replicate k (mkMessage Qc sender ParameterUpdate payload))
                        (merged payload h)).
    { simpl. unfold bind. by rewrite (async_receive_update h sender payload Hlen). }
    rewrite Hstep.
    assert (Hlen' : length payload
                    = length (AsyncParameterServerHandler._buffer (merged payload h))).
    { simpl. unfold merge. rewrite length_zip_with. lia. }
    destruct (IH (merged payload h) sender payload Hlen') as [Hret Hbuf].
    split; [exact Hret|]. rewrite Hbuf.
    change (AsyncParameterServerHandler.alpha (merged payload h))
      with (AsyncParameterServerHandler.alpha h).
    change (AsyncParameterServerHandler._buffer (merged payload h))
      with (zip_with (fun b x => (1 - AsyncParameterServerHandler.alpha h) * b
                                 + AsyncParameterServerHandler.alpha h * x)%Qc
                     (AsyncParameterServerHandler._buffer h) payload).
    rewrite zip_with_merge_step. apply zip_with_Qc_ext.
    intros b x. simpl. ring.
Qed.

(** * Further properties of the client *)

Section ClientRun.
Context {R : Type} `{Scalar R}.
Variable train : Z -> Tensor (R:=R) -> Tensor (R:=R).
Implicit Types (c : ClientCommunicationTopology.t R) (frame : Message R)
  (frames : list (Message R)).

Lemma run_iteration_exit c frame :
  msg_code frame = Exit ->
  ClientSyncTop.run_iteration train frame c = Raised (SystemExit 0) c.
Proof.
  intros Hc. unfold ClientSyncTop.run_iteration. rewrite Hc. reflexivity.
Qed.

(** X22: on an [Exit] frame [run] ends with [exit(0)]: the local vector
    is not replaced, the trainer is not called, nothing is sent, and
    the frames that follow are not read. *)
Theorem client_exit_stops c frame frames :
  msg_code frame = Exit ->
  ClientSyncTop.run train (frame :: frames) c = Raised (SystemExit 0) c.
Proof.
  intros Hc. simpl. unfold bind. by rewrite run_iteration_exit.
Qed.

(** X23: [run] never gets past the first frame and never sends: whatever
    frames arrive, it ends in an exception on the first one, with the
    outbox as it was and the trainer called at most once. *)
Theorem client_run_stops_at_first_frame c frame frames :
  let o := ClientSyncTop.run train (frame :: frames) c in
  o = ClientSyncTop.run_iteration train frame c
  /\ has_returned o = false
  /\ ClientCommunicationTopology.outbox (state_of o)
     = ClientCommunicationTopology.outbox c
  /\ (length (ClientCommunicationTopology.trained (state_of o))
      <= S (length (ClientCommunicationTopology.trained c)))%nat.
Proof.
  intros o. subst o.
  destruct (MessageCode_eqb (msg_code frame) Exit) eqn:E.
  - apply MessageCode_eqb_eq in E.
    assert (Hrun : ClientSyncTop.run train (frame :: frames) c
                   = ClientSyncTop.run_iteration train frame c).
    { simpl. unfold bind. by rewrite (run_iteration_exit c frame E). }
    rewrite Hrun, (run_iteration_exit c frame E). simpl. repeat split. lia.
  - assert (Hne : msg_code frame <> Exit).
    { intros Heq. rewrite Heq in E. discriminate E. }
    assert (Hrun : ClientSyncTop.run train (frame :: frames) c
                   = ClientSyncTop.run_iteration train frame c).
    { simpl. unfold bind. by rewrite (run_iteration_not_exit train c frame Hne). }
    rewrite Hrun, (run_iteration_not_exit train c frame Hne). simpl.
    repeat split. rewrite length_app. simpl. lia.
Qed.

(** X24: the two methods of the client that [run] was written for, one
    after the other: [receive] followed by [synchronize] of the
    backend's vector sends the server (rank 0) one [ParameterUpdate]
    that carries the payload as trained for 2 epochs, whatever the
    sender and the kind of the message. *)
Theorem client_receive_then_synchronize c sender code (payload : Tensor (R:=R)) :
  (ClientSyncTop.receive train sender code payload ;;
   c' <- get ;;
   ClientSyncTop.synchronize (ClientCommunicationTopology._backend_buffer c')) c
  = Returned tt
      (ClientCommunicationTopology.mk
         (train 2 payload)
         (ClientCommunicationTopology.rank c)
         (ClientCommunicationTopology.world_size c)
         (ClientCommunicationTopology.trained c ++ [2])
         (ClientCommunicationTopology.outbox c
            ++ [mkSent R ParameterUpdate (train 2 payload) 0])).
Proof. reflexivity. Qed.
End ClientRun.

(** * The further properties at concrete federations *)

Lemma NoDup_pair (a b : Z) : a <> b -> NoDup [a; b].
Proof.
  intros Hne. apply list.NoDup_cons. split; [|apply NoDup_singleton].
  intros Hin. apply list_elem_of_In in Hin. destruct Hin as [Heq|[]]. by subst.
Qed.

Lemma first_k_contract : sample_contract first_k.
Proof.
  intros population k. unfold first_k.
  destruct (Z.leb_spec 0 k), (Z.leb_spec k (Z.of_nat (length population)));
    simpl; try lia.
  split; [lia|]. split.
  - apply length_take_le. lia.
  - apply sublist_submseteq, sublist_take.
Qed.

Lemma sync_receive_raise_keeps_model_witness :
  exists h',
    SyncParameterServerHandler.receive 1 ParameterUpdate [qc 1 1; qc 2 1] one_of_two
    = Raised TypeError h'
    /\ SyncParameterServerHandler._buffer h' = [qc 0 1; qc 0 1]
    /\ SyncParameterServerHandler._model h' = [qc 0 1; qc 0 1]
    /\ SyncParameterServerHandler.update_flag h' = false.
Proof.
  exists (accepted 0 [qc 1 1; qc 2 1] one_of_two). split; [reflexivity|].
  apply (sync_receive_raise_keeps_model one_of_two 1 ParameterUpdate
           [qc 1 1; qc 2 1] TypeError).
  reflexivity.
Defined.

Lemma sync_quorum_passed_freezes_witness :
  let h := none_of_two in
  let h' := state_of (SyncParameterServerHandler.receive 1 ParameterUpdate
                        [qc 1 1; qc 2 1] h) in
  SyncParameterServerHandler.round_num h <= SyncParameterServerHandler.buffer_cnt h
  /\ SyncParameterServerHandler._buffer h' = SyncParameterServerHandler._buffer h
  /\ SyncParameterServerHandler.update_flag h' = false
  /\ SyncParameterServerHandler.buffer_cnt h' = 1.
Proof.
  intros h h'.
  assert (Hq : SyncParameterServerHandler.round_num h
               <= SyncParameterServerHandler.buffer_cnt h)
    by (vm_compute; discriminate).
  destruct (sync_quorum_passed_freezes h 1 ParameterUpdate [qc 1 1; qc 2 1] Hq)
    as (Hb & _ & Hf & _).
  split; [exact Hq|]. split; [exact Hb|]. split; [exact Hf|reflexivity].
Defined.

Lemma sync_reachable_shape_witness :
  let h := state_of (SyncParameterServerHandler.receive 1 ParameterUpdate
                       [qc 1 1; qc 2 1] two_clients) in
  SyncParameterServerHandler.client_num h = 2
  /\ (exists product,
        py_float_mul_int float_1_0 2 = inr product
        /\ py_int product = inr (SyncParameterServerHandler.round_num h))
  /\ length (SyncParameterServerHandler.client_buffer_cache h) = Z.to_nat 2
  /\ length (SyncParameterServerHandler._buffer h) = length [qc 0 1; qc 0 1].
Proof.
  intros h.
  apply (sync_reachable_shape [qc 0 1; qc 0 1] 2 false float_1_0 two_clients h).
  - reflexivity.
  - exact (reach_receive two_clients two_clients 1 ParameterUpdate [qc 1 1; qc 2 1]
             (reach_here two_clients)).
Defined.

Lemma sync_reachable_count_witness :
  let h := state_of (SyncParameterServerHandler.receive 1 ParameterUpdate
                       [qc 1 1; qc 2 1] two_clients) in
  SyncParameterServerHandler.buffer_cnt h
  = Z.of_nat (occupied (SyncParameterServerHandler.client_buffer_cache h))
  /\ 0 <= SyncParameterServerHandler.buffer_cnt h <= Z.max 0 2.
Proof.
  intros h.
  apply (sync_reachable_count [qc 0 1; qc 0 1] 2 false float_1_0 two_clients h).
  - reflexivity.
  - exact (reach_receive two_clients two_clients 1 ParameterUpdate [qc 1 1; qc 2 1]
             (reach_here two_clients)).
Defined.

Lemma sync_reachable_model_is_buffer_witness :
  let h := state_of (serve SyncParameterServerHandler.receive
                       [update_from 1 [qc 1 1; qc 2 1]] two_clients) in
  let h' := state_of (SyncParameterServerHandler.receive 2 ParameterUpdate
                        [qc 3 1; qc 4 1] h) in
  SyncParameterServerHandler._model h' = SyncParameterServerHandler._buffer h'.
Proof.
  intros h h'.
  apply (sync_reachable_model_is_buffer [qc 0 1; qc 0 1] 2 false float_1_0
           two_clients h').
  - reflexivity.
  - apply (reach_receive two_clients h 2 ParameterUpdate [qc 3 1; qc 4 1]).
    exact (reach_receive two_clients two_clients 1 ParameterUpdate [qc 1 1; qc 2 1]
             (reach_here two_clients)).
Defined.

Lemma sync_rank_out_of_range_witness :
  SyncParameterServerHandler.receive 3 ParameterUpdate [qc 1 1; qc 2 1] two_clients
  = Raised IndexError two_clients
  /\ SyncParameterServerHandler.receive (-2) ParameterUpdate [qc 1 1; qc 2 1] two_clients
     = Raised IndexError two_clients.
Proof.
  split.
  - apply (sync_rank_out_of_range two_clients 3 [qc 1 1; qc 2 1]).
    + reflexivity.
    + vm_compute. discriminate.
    + left. reflexivity.
  - apply (sync_rank_out_of_range two_clients (-2) [qc 1 1; qc 2 1]).
    + reflexivity.
    + vm_compute. discriminate.
    + right. vm_compute. discriminate.
Defined.

Lemma sync_nonpositive_rank_wraps_witness :
  SyncParameterServerHandler.receive (-1) ParameterUpdate [qc 1 1; qc 2 1] two_clients
  = SyncParameterServerHandler.receive 1 ParameterUpdate [qc 1 1; qc 2 1] two_clients.
Proof.
  apply (sync_nonpositive_rank_wraps two_clients (-1) [qc 1 1; qc 2 1]).
  - reflexivity.
  - split; [reflexivity|vm_compute; discriminate].
Defined.

Lemma full_round_two_clients (p1 p2 : list Qc) :
  length p1 = 2%nat -> length p2 = 2%nat ->
  full_round two_clients [update_from 2 p2; update_from 1 p1].
Proof.
  intros H1 H2. split; [|split; [|split]].
  - repeat constructor; vm_compute; discriminate.
  - apply NoDup_pair. discriminate.
  - reflexivity.
  - repeat constructor; simpl; done.
Qed.

Lemma sync_two_full_rounds_witness :
  exists ranked,
    Permutation [update_from 2 [qc 7 1; qc 8 1]; update_from 1 [qc 5 1; qc 6 1]] ranked
    /\ map msg_sender ranked = seqZ 1 2
    /\ serve SyncParameterServerHandler.receive
         ([update_from 2 [qc 3 1; qc 4 1]; update_from 1 [qc 1 1; qc 2 1]]
          ++ [update_from 2 [qc 7 1; qc 8 1]; update_from 1 [qc 5 1; qc 6 1]])
         two_clients
       = Returned tt (completed (Torch.mean_dim0 (map msg_payload ranked)) two_clients).
Proof.
  apply (sync_two_full_rounds two_clients
           [update_from 2 [qc 3 1; qc 4 1]; update_from 1 [qc 1 1; qc 2 1]]
           [update_from 2 [qc 7 1; qc 8 1]; update_from 1 [qc 5 1; qc 6 1]]).
  - split; reflexivity.
  - reflexivity.
  - reflexivity.
  - by apply full_round_two_clients.
  - by apply full_round_two_clients.
Defined.

Lemma sync_default_handler_round_witness :
  0 < 2 <= 2 ^ 53
  /\ full_round two_clients
       [update_from 2 [qc 3 1; qc 4 1]; update_from 1 [qc 1 1; qc 2 1]]
  /\ exists ranked,
       Permutation [update_from 2 [qc 3 1; qc 4 1]; update_from 1 [qc 1 1; qc 2 1]]
         ranked
       /\ map msg_sender ranked = seqZ 1 2
       /\ serve SyncParameterServerHandler.receive
            [update_from 2 [qc 3 1; qc 4 1]; update_from 1 [qc 1 1; qc 2 1]]
            two_clients
          = Returned tt
              (completed (Torch.mean_dim0 (map msg_payload ranked)) two_clients).
Proof.
  assert (Hn : 0 < 2 <= 2 ^ 53) by (split; vm_compute; [reflexivity|discriminate]).
  assert (Hfull : full_round two_clients
            [update_from 2 [qc 3 1; qc 4 1]; update_from 1 [qc 1 1; qc 2 1]])
    by (by apply full_round_two_clients).
  split; [exact Hn|]. split; [exact Hfull|].
  destruct (sync_default_handler_round [qc 0 1; qc 0 1] 2 false Hn)
    as (h0 & Hi & Hround).
  rewrite two_clients_constructed in Hi. injection Hi as <-.
  exact (Hround _ Hfull).
Defined.

Lemma sync_full_round_wrong_length_witness :
  exists h',
    serve SyncParameterServerHandler.receive
      [update_from 1 [qc 1 1; qc 2 1; qc 3 1]; update_from 2 [qc 1 1; qc 2 1]]
      two_clients
    = Raised RuntimeError h'
    /\ SyncParameterServerHandler._buffer h' = SyncParameterServerHandler._buffer two_clients
    /\ SyncParameterServerHandler._model h' = SyncParameterServerHandler._model two_clients
    /\ SyncParameterServerHandler.update_flag h'
       = SyncParameterServerHandler.update_flag two_clients
    /\ SyncParameterServerHandler.buffer_cnt h'
       = SyncParameterServerHandler.round_num two_clients.
Proof.
  apply (sync_full_round_wrong_length two_clients
           [update_from 1 [qc 1 1; qc 2 1; qc 3 1]; update_from 2 [qc 1 1; qc 2 1]]).
  - split; reflexivity.
  - reflexivity.
  - reflexivity.
  - repeat constructor; vm_compute; discriminate.
  - apply NoDup_pair. discriminate.
  - reflexivity.
  - left. exists (update_from 1 [qc 1 1; qc 2 1; qc 3 1]), (update_from 2 [qc 1 1; qc 2 1]).
    split; [by left|]. split; [right; by left|]. simpl. discriminate.
Defined.

Lemma sync_full_round_broadcast_witness :
  exists ranked v,
    Permutation [update_from 2 [qc 3 1]; update_from 1 [qc 1 1]] ranked
    /\ map msg_sender ranked = seqZ 1 2
    /\ Torch.mean_dim0 (map msg_payload ranked) = [v]
    /\ serve SyncParameterServerHandler.receive
         [update_from 2 [qc 3 1]; update_from 1 [qc 1 1]] two_clients
       = Returned tt
           (completed
              (replicate (length (SyncParameterServerHandler._buffer two_clients)) v)
              two_clients).
Proof.
  apply (sync_full_round_broadcast two_clients
           [update_from 2 [qc 3 1]; update_from 1 [qc 1 1]]).
  - split; reflexivity.
  - reflexivity.
  - reflexivity.
  - repeat constructor; vm_compute; discriminate.
  - apply NoDup_pair. discriminate.
  - reflexivity.
  - repeat constructor.
Defined.

Lemma sync_full_round_mean_arrival_order_witness :
  serve SyncParameterServerHandler.receive
    [update_from 2 [qc 3 1; qc 4 1]; update_from 1 [qc 1 1; qc 2 1]] two_clients
  = Returned tt
      (completed (Torch.mean_dim0 [[qc 3 1; qc 4 1]; [qc 1 1; qc 2 1]]) two_clients).
Proof.
  apply (sync_full_round_mean_arrival_order two_clients
           [update_from 2 [qc 3 1; qc 4 1]; update_from 1 [qc 1 1; qc 2 1]]).
  - split; reflexivity.
  - reflexivity.
  - reflexivity.
  - by apply full_round_two_clients.
Defined.

Lemma select_clients_ranks_witness :
  SyncParameterServerHandler.select_clients first_k one_of_two = Some [1]
  /\ 0 <= SyncParameterServerHandler.round_num one_of_two
       <= Z.max 0 (SyncParameterServerHandler.client_num one_of_two)
  /\ Z.of_nat (length [1]) = SyncParameterServerHandler.round_num one_of_two
  /\ NoDup [1]
  /\ Forall (fun s => 1 <= s <= SyncParameterServerHandler.client_num one_of_two) [1].
Proof.
  split; [reflexivity|].
  exact (select_clients_ranks first_k first_k_contract one_of_two).
Defined.


Lemma async_receive_raise_unchanged_witness :
  AsyncParameterServerHandler.receive 1 ParameterUpdate [qc 1 1; qc 2 1; qc 3 1]
    async_two_params
  = Raised RuntimeError async_two_params
  /\ async_two_params = async_two_params.
Proof.
  split; [reflexivity|].
  apply (async_receive_raise_unchanged async_two_params 1 ParameterUpdate
           [qc 1 1; qc 2 1; qc 3 1] RuntimeError async_two_params).
  reflexivity.
Defined.

Lemma async_receive_invariants_witness :
  let h' := state_of (AsyncParameterServerHandler.receive 1 ParameterUpdate
                        [qc 2 1; qc 4 1] async_two_params) in
  AsyncParameterServerHandler._model async_two_params
  = AsyncParameterServerHandler._buffer async_two_params
  /\ AsyncParameterServerHandler.alpha h' = AsyncParameterServerHandler.alpha async_two_params
  /\ AsyncParameterServerHandler.decay h' = AsyncParameterServerHandler.decay async_two_params
  /\ length (AsyncParameterServerHandler._buffer h') = 2%nat
  /\ AsyncParameterServerHandler._model h' = AsyncParameterServerHandler._buffer h'.
Proof.
  intros h'.
  destruct (async_receive_invariants async_two_params 1 ParameterUpdate
              [qc 2 1; qc 4 1]) as (Ha & Hd & Hl & Hm).
  split; [reflexivity|]. split; [exact Ha|]. split; [exact Hd|].
  split; [exact Hl|]. apply Hm. reflexivity.
Defined.

Lemma async_sends_on_request_only_witness :
  let h1 := state_of (AsyncParameterServerHandler.receive 3 ParameterRequest
                        [] async_two_params) in
  let h2 := state_of (AsyncParameterServerHandler.receive 3 ParameterUpdate
                        [qc 2 1; qc 4 1] async_two_params) in
  AsyncParameterServerHandler.outbox h1
  = [mkSent Qc ParameterUpdate [qc 0 1; qc 0 1] 3]
  /\ AsyncParameterServerHandler._buffer h1
     = AsyncParameterServerHandler._buffer async_two_params
  /\ AsyncParameterServerHandler.outbox h2 = [].
Proof.
  intros h1 h2.
  destruct (async_sends_on_request_only async_two_params 3 ParameterRequest [])
    as [Hreq _].
  destruct (async_sends_on_request_only async_two_params 3 ParameterUpdate
              [qc 2 1; qc 4 1]) as [_ Hother].
  destruct (Hreq eq_refl) as (Ho & Hb & _).
  split; [exact Ho|]. split; [exact Hb|].
  apply Hother. discriminate.
Defined.

Lemma async_update_wrong_length_witness :
  AsyncParameterServerHandler.receive 1 ParameterUpdate [qc 1 1; qc 2 1; qc 3 1]
    async_two_params
  = Raised RuntimeError async_two_params.
Proof.
  apply (async_update_wrong_length async_two_params 1 [qc 1 1; qc 2 1; qc 3 1]).
  - simpl. discriminate.
  - simpl. discriminate.
Defined.

Lemma async_repeated_update_exact_witness :
  let o := serve AsyncParameterServerHandler.receive
             (replicate 2 (mkMessage Qc 1 ParameterUpdate [qc 4 1; qc 8 1]))
             async_two_params in
  has_returned o = true
  /\ AsyncParameterServerHandler._buffer (state_of o)
     = zip_with (fun b x => x + (1 - AsyncParameterServerHandler.alpha async_two_params) ^ 2
                              * (b - x))%Qc
                [qc 0 1; qc 0 1] [qc 4 1; qc 8 1].
Proof.
  apply (async_repeated_update_exact 2 async_two_params 1 [qc 4 1; qc 8 1]).
  reflexivity.
Defined.

Lemma client_exit_stops_witness :
  let c := ClientCommunicationTopology.mk [qc 0 1; qc 0 1] 1 3 [] [] in
  ClientSyncTop.run (fun _ t => t)
    [mkMessage Qc 0 Exit [qc 1 1; qc 2 1];
     mkMessage Qc 0 ParameterUpdate [qc 1 1; qc 2 1]] c
  = Raised (SystemExit 0) c.
Proof.
  intros c.
  apply (client_exit_stops (fun _ t => t) c (mkMessage Qc 0 Exit [qc 1 1; qc 2 1])).
  reflexivity.
Defined.

(** ** The update flag *)

Section SyncFlag.
Context {R : Type} `{Scalar R}.

(** X25: [receive] never clears [update_flag], and it sets the flag only
    in a call that returns after completing a round, the call whose
    contribution brings [buffer_cnt] to [round_num]. *)
Theorem sync_update_flag_set_by_completion
    (h : SyncParameterServerHandler.t R) sender code (payload : Tensor (R:=R)) :
  let o := SyncParameterServerHandler.receive sender code payload h in
  (SyncParameterServerHandler.update_flag h = true ->
     SyncParameterServerHandler.update_flag (state_of o) = true)
  /\ (SyncParameterServerHandler.update_flag h = false ->
      SyncParameterServerHandler.update_flag (state_of o) = true ->
      SyncParameterServerHandler.buffer_cnt h + 1
        = SyncParameterServerHandler.round_num h
      /\ exists buf, o = Returned tt (completed buf h)).
Proof.
  intros o. subst o.
  destruct (receive_cases h sender code payload)
    as [[e0 He]|[Hd|(n & _ & [[_ Ha]|[Hc [[e0 He]|(buf & _ & Hb)]]])]].
  - rewrite He. simpl. split; [done|]. congruence.
  - rewrite Hd. simpl. split; [done|]. congruence.
  - rewrite Ha. simpl. split; [done|]. congruence.
  - rewrite He. simpl. split; [done|]. congruence.
  - rewrite Hb. simpl. split; [done|]. intros _ _. split; [done|]. by exists buf.
Qed.
End SyncFlag.

Lemma sync_update_flag_set_by_completion_witness :
  let h := state_of (SyncParameterServerHandler.receive 1 ParameterUpdate
                       [qc 1 1; qc 2 1] two_clients) in
  let o := SyncParameterServerHandler.receive 2 ParameterUpdate [qc 3 1; qc 4 1] h in
  SyncParameterServerHandler.update_flag h = false
  /\ SyncParameterServerHandler.update_flag (state_of o) = true
  /\ SyncParameterServerHandler.buffer_cnt h + 1 = SyncParameterServerHandler.round_num h
  /\ exists buf, o = Returned tt (completed buf h).
Proof.
  intros h o.
  split; [reflexivity|]. split; [reflexivity|].
  apply (proj2 (sync_update_flag_set_by_completion h 2 ParameterUpdate
                  [qc 3 1; qc 4 1])); reflexivity.
Defined.
